(** * SCHC advisor: the hybrid estimation layer and the decision rule

    A shallow embedding of [streamlit_SCHC.py].  The two data frames are
    lists of records, a boolean mask is a [filter], [groupby(...).agg(mean)]
    is one row per distinct key, and the four optional models are optional
    functions from a feature row to a number.

    Numbers.  Python floats are embedded as exact rationals extended with
    [NaN], the value pandas gives for the mean of an empty selection and the
    only non-finite value the script can produce by itself.  Comparisons with
    [NaN] are false, arithmetic with [NaN] is [NaN].  Rounding, overflow and
    infinities are outside this embedding; the demand and shortage
    estimation, whose result can turn on a rounding, is embedded a second
    time on binary64 floats in the module [B64]. *)

From Stdlib Require Import ZArith QArith Bool List String Permutation Sorted.
From Stdlib Require Import PrimFloat SpecFloat FloatOps.
From Stdlib Require Import Lia Lqa.
Import ListNotations.

Open Scope string_scope.
Open Scope Q_scope.

(** ** Numbers *)

Inductive num : Type :=
| Fin (q : Q)
| NaN.

Module Num.

(** [float(i)] / the implicit conversion of an [int] operand. *)
Definition of_int (i : Z) : num := Fin (inject_Z i).

Definition Qlt_bool (x y : Q) : bool := negb (Qle_bool y x).

(** [a < b], [a <= b], [a >= b] as Python evaluates them: a [bool]. *)
Definition ltb (a b : num) : bool :=
  match a, b with
  | Fin x, Fin y => Qlt_bool x y
  | _, _ => false
  end.

Definition leb (a b : num) : bool :=
  match a, b with
  | Fin x, Fin y => Qle_bool x y
  | _, _ => false
  end.

Definition geb (a b : num) : bool := leb b a.

(** The same orders as propositions, for statements. *)
Definition lt (a b : num) : Prop :=
  match a, b with
  | Fin x, Fin y => x < y
  | _, _ => False
  end.

Definition le (a b : num) : Prop :=
  match a, b with
  | Fin x, Fin y => x <= y
  | _, _ => False
  end.

(** Where a descending sort puts [a] relative to [b]: not after it. *)
Definition ge_na_last (a b : num) : Prop :=
  match a, b with
  | Fin x, Fin y => y <= x
  | _, NaN => True
  | NaN, Fin _ => False
  end.

(** [a / b] for a non-zero divisor (the script only divides by [30.0]). *)
Definition div (a b : num) : num :=
  match a, b with
  | Fin x, Fin y => Fin (x / y)
  | _, _ => NaN
  end.

Definition mul (a b : num) : num :=
  match a, b with
  | Fin x, Fin y => Fin (x * y)
  | _, _ => NaN
  end.

Definition sub (a b : num) : num :=
  match a, b with
  | Fin x, Fin y => Fin (x - y)
  | _, _ => NaN
  end.

Definition Qsum (l : list Q) : Q := fold_right Qplus 0 l.

(** [Series.mean()]: [NaN] on an empty selection. *)
Definition mean (l : list Q) : num :=
  match l with
  | [] => NaN
  | _ :: _ => Fin (Qsum l / inject_Z (Z.of_nat (List.length l)))
  end.

(** Equality of values, up to the representation of a fraction. *)
Definition eqv (a b : num) : Prop :=
  match a, b with
  | Fin x, Fin y => x == y
  | NaN, NaN => True
  | _, _ => False
  end.

(** A boolean column averages as 0/1. *)
Definition of_bool (b : bool) : Q := if b then 1 else 0.

End Num.

(** ** Data frame helpers *)

Section Frames.

Context {A : Type}.

(** [Series.unique()]: the distinct values in order of first appearance. *)
Fixpoint unique (eqb : A -> A -> bool) (l : list A) : list A :=
  match l with
  | [] => []
  | x :: t => x :: filter (fun y => negb (eqb x y)) (unique eqb t)
  end.

(** [x in values] *)
Definition isin (eqb : A -> A -> bool) (x : A) (l : list A) : bool :=
  existsb (eqb x) l.

(** Insertion of [x] in front of the first element it does not follow. *)
Fixpoint insert_by (leb : A -> A -> bool) (x : A) (l : list A) : list A :=
  match l with
  | [] => [x]
  | y :: t => if leb x y then x :: y :: t else y :: insert_by leb x t
  end.

(** [sorted(...)] / [sort_values(...)] for the order [leb]. *)
Definition sort_by (leb : A -> A -> bool) (l : list A) : list A :=
  fold_right (insert_by leb) [] l.

(** [l] is in the order [leb] when [StronglySorted (ordered_by leb) l]. *)
Definition ordered_by (leb : A -> A -> bool) (x y : A) : Prop := leb x y = true.

(** [.iloc[0]]; the default stands for the [IndexError] on an empty
    selection, which no call below can reach. *)
Definition iloc0 (d : A) (l : list A) : A := hd d l.

(** [DataFrame.empty] for a frame with columns: no row. *)
Definition empty (l : list A) : bool :=
  match l with
  | [] => true
  | _ :: _ => false
  end.

End Frames.

(** ** Reference data (section 3 of the specification) *)

(** One row of [supply_chain_shipments.csv].  Every cell is present, as in
    section 3 of the specification; a row with a missing cell is outside the
    embedding. *)
Record Shipment : Type := mkShipment {
  Origin : string;
  Destination : string;
  Carrier : string;
  ServiceLevel : string;
  Distance : Q;
  Weight : Q;
  Stops : Z;
  ShipmentCost : Q;
  OnTimeDelivery : bool
}.

(** One row of [healthcare_demand.csv]. *)
Record DemandRecord : Type := mkDemandRecord {
  Hospital : string;
  Region : string;
  Medicine : string;
  Month : Z;
  Inventory : Q;
  LeadTimeDays : Q;
  Demand : Q
}.

(** One row of the lane statistics, loaded from [carrier_lane_stats.csv]
    or computed by [compute_lane_stats]. *)
Record LaneStat : Type := mkLaneStat {
  ls_Origin : string;
  ls_Destination : string;
  ls_Carrier : string;
  ls_ServiceLevel : string;
  ls_on_time_prob : num;
  ls_est_cost : num;
  ls_avg_dist : num;
  ls_n : nat
}.

(** One row of the demand baseline. *)
Record Baseline : Type := mkBaseline {
  bl_Hospital : string;
  bl_Medicine : string;
  bl_Month : Z;
  pred_monthly_demand : num
}.

(** The feature rows handed to the models ([x_reg], [x_cls], [x_sc]). *)
Record HcFeatures : Type := mkHcFeatures {
  x_Hospital : string;
  x_Region : string;
  x_Medicine : string;
  x_Month : Z;
  x_Inventory : Z;
  x_LeadTimeDays : Z
}.

Record ScFeatures : Type := mkScFeatures {
  x_Origin : string;
  x_Destination : string;
  x_Carrier : string;
  x_ServiceLevel : string;
  x_Distance : num;
  x_Weight : Q;
  x_Stops : Z
}.

(** The dict returned by [load_models]: each entry is a model or [None].
    A model is opaque; [predict(x)[0]] and [predict_proba(x)[0,1]] are both
    a function from the feature row to a number. *)
Record Models : Type := mkModels {
  sc_on_time : option (ScFeatures -> num);
  sc_cost : option (ScFeatures -> num);
  hc_demand : option (HcFeatures -> num);
  hc_risk : option (HcFeatures -> num)
}.

(** ** Helpers (stats-only fallbacks) *)

Definition LaneKey : Type := (string * string * string * string)%type.
Definition DemandKey : Type := (string * string * Z)%type.

Definition lane_key (r : Shipment) : LaneKey :=
  (Origin r, Destination r, Carrier r, ServiceLevel r).

Definition demand_key (r : DemandRecord) : DemandKey :=
  (Hospital r, Medicine r, Month r).

Definition lane_key_eqb (a b : LaneKey) : bool :=
  let '(o1, d1, c1, s1) := a in
  let '(o2, d2, c2, s2) := b in
  String.eqb o1 o2 && String.eqb d1 d2 && String.eqb c1 c2 && String.eqb s1 s2.

Definition demand_key_eqb (a b : DemandKey) : bool :=
  let '(h1, m1, t1) := a in
  let '(h2, m2, t2) := b in
  String.eqb h1 h2 && String.eqb m1 m2 && Z.eqb t1 t2.

(** The group keys come out sorted, column by column. *)
Definition lex (c1 c2 : comparison) : comparison :=
  match c1 with
  | Eq => c2
  | _ => c1
  end.

Definition not_Gt (c : comparison) : bool :=
  match c with
  | Gt => false
  | _ => true
  end.

Definition lane_key_leb (a b : LaneKey) : bool :=
  let '(o1, d1, c1, s1) := a in
  let '(o2, d2, c2, s2) := b in
  not_Gt (lex (String.compare o1 o2) (lex (String.compare d1 d2)
         (lex (String.compare c1 c2) (String.compare s1 s2)))).

Definition demand_key_leb (a b : DemandKey) : bool :=
  let '(h1, m1, t1) := a in
  let '(h2, m2, t2) := b in
  not_Gt (lex (String.compare h1 h2) (lex (String.compare m1 m2) (Z.compare t1 t2))).

(** The records of one (hospital, medicine, month). *)
Definition demand_group (hc_df : list DemandRecord) (h m : string) (t : Z)
    : list DemandRecord :=
  filter (fun r => String.eqb (Hospital r) h && String.eqb (Medicine r) m
                   && Z.eqb (Month r) t) hc_df.

(** The shipments of one (origin, destination, carrier, service). *)
Definition lane_group (sc_shipments : list Shipment) (o d c s : string)
    : list Shipment :=
  filter (fun r => String.eqb (Origin r) o && String.eqb (Destination r) d
                   && String.eqb (Carrier r) c && String.eqb (ServiceLevel r) s)
         sc_shipments.

(** The shipments of one (origin, destination), any carrier and service. *)
Definition lane_records (sc_shipments : list Shipment) (o d : string) : list Shipment :=
  filter (fun r => String.eqb (Origin r) o && String.eqb (Destination r) d) sc_shipments.

(** [groupby(keys)]: the distinct keys in sorted order, each with the rows
    of its group. *)
Definition group_keys {K : Type} (eqb leb : K -> K -> bool) (keys : list K) : list K :=
  sort_by leb (unique eqb keys).

Definition compute_lane_stats (sc_shipments : list Shipment) : list LaneStat :=
  map (fun k : LaneKey =>
         let '(o, d, c, s) := k in
         let g := filter (fun r => lane_key_eqb (lane_key r) k) sc_shipments in
         {| ls_Origin := o; ls_Destination := d; ls_Carrier := c; ls_ServiceLevel := s;
            ls_on_time_prob := Num.mean (map (fun r => Num.of_bool (OnTimeDelivery r)) g);
            ls_est_cost := Num.mean (map ShipmentCost g);
            ls_avg_dist := Num.mean (map Distance g);
            ls_n := List.length g |})
      (group_keys lane_key_eqb lane_key_leb (map lane_key sc_shipments)).

Definition baseline_demand (hc_df : list DemandRecord) : list Baseline :=
  map (fun k : DemandKey =>
         let '(h, m, t) := k in
         let g := filter (fun r => demand_key_eqb (demand_key r) k) hc_df in
         {| bl_Hospital := h; bl_Medicine := m; bl_Month := t;
            pred_monthly_demand := Num.mean (map Demand g) |})
      (group_keys demand_key_eqb demand_key_leb (map demand_key hc_df)).

(** ** Core computations (hybrid: models if available; else stats) *)

(** One row of the carrier comparison, before its columns are formatted
    for display. *)
Record CompRow : Type := mkCompRow {
  cr_Carrier : string;
  on_time_probability : num;
  estimated_cost : num;
  recommendation : string
}.

(** What one submitted form computes. *)
Record Advice : Type := mkAdvice {
  out_demand_pred : num;
  out_shortage_prob : num;
  out_buffer_need : num;
  out_inventory_gap : num;
  out_distance : num;
  out_on_time_prob : num;
  out_cost_est : num;
  out_order_now : bool;
  out_risk_flag : bool;
  out_recommendation : string;
  out_logistics_note : string
}.

(** [order_now = (shortage_prob >= 0.5) or (inventory_gap < 0)] *)
Definition order_now (shortage_prob inventory_gap : num) : bool :=
  Num.geb shortage_prob (Fin 0.5) || Num.ltb inventory_gap (Fin 0).

(** [risk_flag = on_time_prob < 0.7] *)
Definition risk_flag (on_time_prob : num) : bool :=
  Num.ltb on_time_prob (Fin 0.7).

(** The order of [sort_values("on_time_probability", ascending=False)]:
    larger values first, missing values last.  pandas leaves the order
    among equal values to its sorting routine; [sort_by] keeps them in
    carrier order, and no statement below depends on that. *)
Definition desc_na_last (a b : num) : bool :=
  match a, b with
  | Fin x, Fin y => Qle_bool y x
  | _, NaN => true
  | NaN, Fin _ => false
  end.

Definition comp_leb (r1 r2 : CompRow) : bool :=
  desc_na_last (on_time_probability r1) (on_time_probability r2).

Section Advisor.

(** The module-level state: the two required tables, the optional lane
    statistics file and the models.  It is read-only once loaded. *)
Variable sc_shipments : list Shipment.
Variable hc_df : list DemandRecord.
Variable lane_stats_csv : option (list LaneStat).
Variable models : Models.

Definition lane_stats : list LaneStat :=
  match lane_stats_csv with
  | Some t => t
  | None => compute_lane_stats sc_shipments
  end.

Definition demand_baseline : list Baseline := baseline_demand hc_df.

Definition hospitals : list string :=
  sort_by String.leb (unique String.eqb (map Hospital hc_df)).
Definition medicines : list string :=
  sort_by String.leb (unique String.eqb (map Medicine hc_df)).
Definition carriers : list string :=
  sort_by String.leb (unique String.eqb (map Carrier sc_shipments)).

(** The first line of [predict_demand_and_risk]: the region of the
    hospital's first record, ["MW"] for a hospital without records. *)
Definition region_of (hospital : string) : string :=
  if isin String.eqb hospital (unique String.eqb (map Hospital hc_df))
  then iloc0 "" (map Region (filter (fun r => String.eqb (Hospital r) hospital) hc_df))
  else "MW".

Definition predict_demand_and_risk
    (hospital medicine : string) (month current_inventory lead_time_days : Z)
    : num * num * num * num :=
  let region := region_of hospital in
  (* Demand *)
  let demand_pred :=
    match hc_demand models with
    | Some reg =>
        reg {| x_Hospital := hospital; x_Region := region; x_Medicine := medicine;
               x_Month := month; x_Inventory := current_inventory;
               x_LeadTimeDays := lead_time_days |}
    | None =>
        let row := filter (fun b => String.eqb (bl_Hospital b) hospital
                                    && String.eqb (bl_Medicine b) medicine
                                    && Z.eqb (bl_Month b) month) demand_baseline in
        if negb (empty row)
        then iloc0 NaN (map pred_monthly_demand row)
        else Num.mean (map Demand
               (filter (fun r => String.eqb (Medicine r) medicine) hc_df))
    end in
  (* Shortage probability *)
  let shortage_prob :=
    match hc_risk models with
    | Some clf =>
        clf {| x_Hospital := hospital; x_Region := region; x_Medicine := medicine;
               x_Month := month; x_Inventory := current_inventory;
               x_LeadTimeDays := lead_time_days |}
    | None =>
        let daily := Num.div demand_pred (Fin 30.0) in
        let buffer_need := Num.mul daily (Num.of_int lead_time_days) in
        if Num.ltb (Num.of_int current_inventory) buffer_need then Fin 0.8 else Fin 0.2
    end in
  let daily_need := Num.div demand_pred (Fin 30.0) in
  let buffer_need := Num.mul daily_need (Num.of_int lead_time_days) in
  let inventory_gap := Num.sub (Num.of_int current_inventory) buffer_need in
  (demand_pred, shortage_prob, buffer_need, inventory_gap).

Definition estimate_lane
    (origin destination carrier service : string)
    (distance_override : option Q) (weight : Q) (stops : Z)
    : num * num * num :=
  let auto :=
    let lane := filter (fun r => String.eqb (Origin r) origin
                                 && String.eqb (Destination r) destination)
                       sc_shipments in
    if (5 <=? List.length lane)%nat then Num.mean (map Distance lane) else Fin 800.0 in
  let distance :=
    match distance_override with
    | Some d => if negb (Qeq_bool d 0) && Num.Qlt_bool 0 d then Fin d else auto
    | None => auto
    end in
  match sc_on_time models, sc_cost models with
  | Some clf, Some reg =>
      let x_sc := {| x_Origin := origin; x_Destination := destination;
                     x_Carrier := carrier; x_ServiceLevel := service;
                     x_Distance := distance; x_Weight := weight; x_Stops := stops |} in
      (distance, clf x_sc, reg x_sc)
  | _, _ =>
      let row := filter (fun s => String.eqb (ls_Origin s) origin
                                  && String.eqb (ls_Destination s) destination
                                  && String.eqb (ls_Carrier s) carrier
                                  && String.eqb (ls_ServiceLevel s) service)
                        lane_stats in
      if empty row then
        let lane_only := filter (fun r => String.eqb (Origin r) origin
                                          && String.eqb (Destination r) destination)
                                sc_shipments in
        let on_time_prob :=
          if negb (empty lane_only)
          then Num.mean (map (fun r => Num.of_bool (OnTimeDelivery r)) lane_only)
          else Fin 0.65 in
        let cost_est :=
          if negb (empty lane_only)
          then Num.mean (map ShipmentCost lane_only)
          else Fin 300.0 in
        (distance, on_time_prob, cost_est)
      else
        (distance, iloc0 NaN (map ls_on_time_prob row), iloc0 NaN (map ls_est_cost row))
  end.

(** The loop over [carriers] and the [sort_values] that follows it.  The
    frame built from an empty list of rows has no column, and sorting it by
    ["on_time_probability"] raises [KeyError]: [None]. *)
Definition compare_carriers
    (origin destination service : string) (distance_input : option Q)
    (weight : Q) (stops : Z) (recommendation : string) : option (list CompRow) :=
  let rows :=
    map (fun c =>
           let '(_, otp, ce) :=
             estimate_lane origin destination c service distance_input weight stops in
           {| cr_Carrier := c;
              on_time_probability := otp;
              estimated_cost := ce;
              recommendation :=
                if Num.geb otp (Fin 0.7) then recommendation
                else "Consider alternate/expedite" |})
        carriers in
  if empty rows then None else Some (sort_by comp_leb rows).

(** The first part of the body of [if run_clicked:]: the two estimations,
    the decision and its two labels. *)
Definition run
    (hospital medicine : string) (month : Z)
    (origin destination carrier service : string)
    (current_inventory lead_time_days stops : Z) (weight : Q) (distance_input : Z)
    : Advice :=
  let '(demand_pred, shortage_prob, buffer_need, inventory_gap) :=
    predict_demand_and_risk hospital medicine month current_inventory lead_time_days in
  let '(distance, on_time_prob, cost_est) :=
    estimate_lane origin destination carrier service
                  (Some (inject_Z distance_input)) weight stops in
  let order_now := order_now shortage_prob inventory_gap in
  let risk_flag := risk_flag on_time_prob in
  let recommendation := if order_now then "✅ ORDER NOW" else "🕒 OK TO WAIT" in
  let logistics_note :=
    if risk_flag
    then "⚠️ Lane/Carrier risk is HIGH (consider expedited or different carrier)"
    else "✅ Lane/Carrier risk acceptable" in
  {| out_demand_pred := demand_pred;
     out_shortage_prob := shortage_prob;
     out_buffer_need := buffer_need;
     out_inventory_gap := inventory_gap;
     out_distance := distance;
     out_on_time_prob := on_time_prob;
     out_cost_est := cost_est;
     out_order_now := order_now;
     out_risk_flag := risk_flag;
     out_recommendation := recommendation;
     out_logistics_note := logistics_note |}.

End Advisor.

(** ** The demand and shortage estimation in binary64

    [predict_demand_and_risk] above computes with exact rationals: it shows
    which records and which branch decide the result.  The interpreter
    computes in binary64, where [62 / 30.0 * 15] is [31.000000000000004] and
    not [31].  [B64.predict_demand_and_risk] is the same function on
    primitive floats, operation by operation.  pandas computes the two
    means in binary64 as well, adding the values in an order of its own,
    which is not embedded: the two means are parameters. *)

#[local] Set Warnings "-inexact-float".

Module B64.

(** The conversion of an [int] operand, [float(i)]: the nearest float,
    ties to even.  (An [int] beyond the range of the floats, where Python
    raises [OverflowError], comes out as an infinity; no form input is that
    large.) *)
Definition of_int (i : Z) : float :=
  SF2Prim (binary_normalize prec emax i 0 false).

(** The number a float stands for. *)
Inductive exact_value : Type :=
| Exact (q : Q)
| PlusInfinity
| MinusInfinity
| NotANumber.

Definition value (x : float) : exact_value :=
  match Prim2SF x with
  | S754_zero _ => Exact 0
  | S754_infinity negative => if negative then MinusInfinity else PlusInfinity
  | S754_nan => NotANumber
  | S754_finite negative m e =>
      Exact (inject_Z (if negative then Z.neg m else Z.pos m) * Qpower 2 e)
  end.

(** [i < x] for an [int] and a [float]: Python compares the two numbers
    exactly, without converting the [int]. *)
Definition int_ltb (i : Z) (x : float) : bool :=
  match value x with
  | Exact q => Num.Qlt_bool (inject_Z i) q
  | PlusInfinity => true
  | MinusInfinity => false
  | NotANumber => false
  end.

Definition int_lt (i : Z) (x : float) : Prop :=
  match value x with
  | Exact q => inject_Z i < q
  | PlusInfinity => True
  | MinusInfinity => False
  | NotANumber => False
  end.

(** One row of [healthcare_demand.csv], its numbers as pandas holds them. *)
Record DemandRecord : Type := mkDemandRecord {
  Hospital : string;
  Region : string;
  Medicine : string;
  Month : Z;
  Inventory : float;
  LeadTimeDays : float;
  Demand : float
}.

Record Baseline : Type := mkBaseline {
  bl_Hospital : string;
  bl_Medicine : string;
  bl_Month : Z;
  pred_monthly_demand : float
}.

(** The two entries of the models dict that the function reads. *)
Record Models : Type := mkModels {
  hc_demand : option (HcFeatures -> float);
  hc_risk : option (HcFeatures -> float)
}.

Definition demand_key (r : DemandRecord) : DemandKey :=
  (Hospital r, Medicine r, Month r).

Section Estimation.

(** [groupby(...).agg(mean)] and [Series.mean()] on a column selection. *)
Variable group_mean : list float -> float.
Variable series_mean : list float -> float.

Variable hc_df : list DemandRecord.
Variable models : Models.

Definition baseline_demand : list Baseline :=
  map (fun k : DemandKey =>
         let '(h, m, t) := k in
         let g := filter (fun r => demand_key_eqb (demand_key r) k) hc_df in
         {| bl_Hospital := h; bl_Medicine := m; bl_Month := t;
            pred_monthly_demand := group_mean (map Demand g) |})
      (group_keys demand_key_eqb demand_key_leb (map demand_key hc_df)).

Definition demand_baseline : list Baseline := baseline_demand.

Definition region_of (hospital : string) : string :=
  if isin String.eqb hospital (unique String.eqb (map Hospital hc_df))
  then iloc0 "" (map Region (filter (fun r => String.eqb (Hospital r) hospital) hc_df))
  else "MW".

Definition predict_demand_and_risk
    (hospital medicine : string) (month current_inventory lead_time_days : Z)
    : float * float * float * float :=
  let region := region_of hospital in
  (* Demand *)
  let demand_pred :=
    match hc_demand models with
    | Some reg =>
        reg {| x_Hospital := hospital; x_Region := region; x_Medicine := medicine;
               x_Month := month; x_Inventory := current_inventory;
               x_LeadTimeDays := lead_time_days |}
    | None =>
        let row := filter (fun b => String.eqb (bl_Hospital b) hospital
                                    && String.eqb (bl_Medicine b) medicine
                                    && Z.eqb (bl_Month b) month) demand_baseline in
        if negb (empty row)
        then iloc0 nan (map pred_monthly_demand row)
        else series_mean (map Demand
               (filter (fun r => String.eqb (Medicine r) medicine) hc_df))
    end in
  (* Shortage probability *)
  let shortage_prob :=
    match hc_risk models with
    | Some clf =>
        clf {| x_Hospital := hospital; x_Region := region; x_Medicine := medicine;
               x_Month := month; x_Inventory := current_inventory;
               x_LeadTimeDays := lead_time_days |}
    | None =>
        let daily := (demand_pred / 30.0)%float in
        let buffer_need := (daily * of_int lead_time_days)%float in
        if int_ltb current_inventory buffer_need then 0.8%float else 0.2%float
    end in
  let daily_need := (demand_pred / 30.0)%float in
  let buffer_need := (daily_need * of_int lead_time_days)%float in
  let inventory_gap := (of_int current_inventory - buffer_need)%float in
  (demand_pred, shortage_prob, buffer_need, inventory_gap).

End Estimation.

(** [order_now = (shortage_prob >= 0.5) or (inventory_gap < 0)] *)
Definition order_now (shortage_prob inventory_gap : float) : bool :=
  (0.5 <=? shortage_prob)%float || (inventory_gap <? 0)%float.

End B64.

(** ** Sample data

    A small instance of the two tables, used to run the definitions. *)

Module Sample.

Definition demand_rec (h rg m : string) (t : Z) (d : Q) : DemandRecord :=
  {| Hospital := h; Region := rg; Medicine := m; Month := t;
     Inventory := 100; LeadTimeDays := 7; Demand := d |}.

Definition hc_df : list DemandRecord :=
  [ demand_rec "GenHosp" "NE" "InsulinX" 6 280;
    demand_rec "StMary" "MW" "Amoxil" 6 90;
    demand_rec "GenHosp" "NE" "InsulinX" 6 320;
    demand_rec "GenHosp" "NE" "InsulinX" 7 600;
    demand_rec "StMary" "MW" "InsulinX" 1 240 ].

Definition shipment (o d c s : string) (dist cost : Q) (ok : bool) : Shipment :=
  {| Origin := o; Destination := d; Carrier := c; ServiceLevel := s;
     Distance := dist; Weight := 35000; Stops := 1;
     ShipmentCost := cost; OnTimeDelivery := ok |}.

(** Five shipments on the lane CHI-NYC, four on DAL-SEA. *)
Definition sc_shipments : list Shipment :=
  [ shipment "CHI" "NYC" "Swift" "Standard" 790 510 true;
    shipment "CHI" "NYC" "Acme" "Standard" 800 480 false;
    shipment "DAL" "SEA" "Acme" "Express" 2100 1500 true;
    shipment "CHI" "NYC" "Swift" "Standard" 810 530 true;
    shipment "DAL" "SEA" "Zephyr" "Standard" 2000 1300 false;
    shipment "CHI" "NYC" "Acme" "Express" 795 700 true;
    shipment "DAL" "SEA" "Acme" "Express" 2200 1700 true;
    shipment "CHI" "NYC" "Zephyr" "Standard" 805 450 true;
    shipment "DAL" "SEA" "Swift" "Standard" 2100 1250 false ].

Definition no_models : Models :=
  {| sc_on_time := None; sc_cost := None; hc_demand := None; hc_risk := None |}.

(** A linear demand regressor that extrapolates below zero. *)
Definition trend_model (x : HcFeatures) : num :=
  Fin (200 - 25 * inject_Z (x_Month x)).

Definition with_demand_model : Models :=
  {| sc_on_time := None; sc_cost := None;
     hc_demand := Some trend_model; hc_risk := None |}.


(** Only the on-time classifier is present. *)
Definition on_time_only : Models :=
  {| sc_on_time := Some (fun _ => Fin 0.9); sc_cost := None;
     hc_demand := None; hc_risk := None |}.

End Sample.

(** ** Orders given by a comparison function

    The sorted lists of the script ([sorted(...)], the group keys of
    [groupby]) are ordered by [String.compare], [Z.compare] and their
    lexicographic combinations. *)

Record order_cmp {A : Type} (cmp : A -> A -> comparison) : Prop := mk_order_cmp {
  cmp_opp : forall x y, cmp y x = CompOpp (cmp x y);
  cmp_eq : forall x y, cmp x y = Eq -> x = y;
  cmp_lt_trans : forall x y z, cmp x y = Lt -> cmp y z = Lt -> cmp x z = Lt
}.

Definition lex_cmp {A B : Type} (cA : A -> A -> comparison) (cB : B -> B -> comparison)
    (p q : A * B) : comparison :=
  lex (cA (fst p) (fst q)) (cB (snd p) (snd q)).

Definition lane_key_cmp : LaneKey -> LaneKey -> comparison :=
  lex_cmp (lex_cmp (lex_cmp String.compare String.compare) String.compare) String.compare.

Definition demand_key_cmp : DemandKey -> DemandKey -> comparison :=
  lex_cmp (lex_cmp String.compare String.compare) Z.compare.

Definition ls_key (s : LaneStat) : LaneKey :=
  (ls_Origin s, ls_Destination s, ls_Carrier s, ls_ServiceLevel s).

Definition bl_key (b : Baseline) : DemandKey :=
  (bl_Hospital b, bl_Medicine b, bl_Month b).

Definition is_finite (x : num) : Prop :=
  match x with
  | Fin _ => True
  | NaN => False
  end.

(** The demand of the statistics branch of [predict_demand_and_risk]: the
    baseline entry of the key, else the mean over the medicine. *)
Definition stats_demand (hc_df : list DemandRecord) (hospital medicine : string)
    (month : Z) : num :=
  let row := filter (fun b => String.eqb (bl_Hospital b) hospital
                              && String.eqb (bl_Medicine b) medicine
                              && Z.eqb (bl_Month b) month) (demand_baseline hc_df) in
  if negb (empty row)
  then iloc0 NaN (map pred_monthly_demand row)
  else Num.mean (map Demand (filter (fun r => String.eqb (Medicine r) medicine) hc_df)).

(** A lane statistics file with two rows for one lane key. *)
Module SampleFile.

Definition stat (o d c s : string) (otp cost : Q) : LaneStat :=
  {| ls_Origin := o; ls_Destination := d; ls_Carrier := c; ls_ServiceLevel := s;
     ls_on_time_prob := Fin otp; ls_est_cost := Fin cost; ls_avg_dist := Fin 800;
     ls_n := 10 |}.

Definition lane_stats_csv : list LaneStat :=
  [ stat "CHI" "NYC" "Acme" "Standard" 0.5 400;
    stat "CHI" "NYC" "Swift" "Standard" 0.9 500;
    stat "CHI" "NYC" "Swift" "Standard" 0.1 900 ].

End SampleFile.

(** A demand table in binary64 with one record, and a mean that adds the
    values from left to right. *)
Module SampleB64.

Definition mean_left_to_right (l : list float) : float :=
  (fold_left PrimFloat.add l 0 / B64.of_int (Z.of_nat (List.length l)))%float.

Definition hc_df : list B64.DemandRecord :=
  [ {| B64.Hospital := "GenHosp"; B64.Region := "NE"; B64.Medicine := "InsulinX";
       B64.Month := 6; B64.Inventory := 100; B64.LeadTimeDays := 7;
       B64.Demand := 62 |} ].

(** Two records of one key with a mean demand of 300. *)
Definition hc_df_300 : list B64.DemandRecord :=
  [ {| B64.Hospital := "GenHosp"; B64.Region := "NE"; B64.Medicine := "InsulinX";
       B64.Month := 6; B64.Inventory := 100; B64.LeadTimeDays := 7;
       B64.Demand := 280 |};
    {| B64.Hospital := "GenHosp"; B64.Region := "NE"; B64.Medicine := "InsulinX";
       B64.Month := 6; B64.Inventory := 120; B64.LeadTimeDays := 7;
       B64.Demand := 320 |} ].

Definition no_models : B64.Models :=
  {| B64.hc_demand := None; B64.hc_risk := None |}.

End SampleB64.

(** A demand table in which one hospital is recorded under two regions,
    neither of them the default, and two models that look at the region. *)
Module SampleRegion.

Definition hc_df : list DemandRecord :=
  [ Sample.demand_rec "StMary" "MW" "Amoxil" 6 90;
    Sample.demand_rec "GenHosp" "NE" "InsulinX" 6 280;
    Sample.demand_rec "GenHosp" "SO" "InsulinX" 7 600 ].

Definition by_region (ne so other : Q) (x : HcFeatures) : num :=
  if String.eqb (x_Region x) "NE" then Fin ne
  else if String.eqb (x_Region x) "SO" then Fin so
  else Fin other.

Definition regional_models : Models :=
  {| sc_on_time := None; sc_cost := None;
     hc_demand := Some (by_region 500 300 100);
     hc_risk := Some (by_region 0.9 0.5 0.1) |}.

End SampleRegion.

(** * Properties *)

(** ** Numbers *)

Module NumFacts.

Lemma Qlt_bool_iff (x y : Q) : Num.Qlt_bool x y = true <-> x < y.
Proof.
  unfold Num.Qlt_bool. rewrite negb_true_iff.
  destruct (Qle_bool y x) eqn:E.
  - apply Qle_bool_iff in E. split; [discriminate | intro H; exfalso; lra].
  - split; [intros _ | reflexivity].
    apply Qnot_le_lt. intro H. apply Qle_bool_iff in H. congruence.
Qed.

Lemma ltb_lt (a b : num) : Num.ltb a b = true <-> Num.lt a b.
Proof.
  destruct a, b; simpl; try (split; [discriminate | contradiction]).
  apply Qlt_bool_iff.
Qed.

Lemma leb_le (a b : num) : Num.leb a b = true <-> Num.le a b.
Proof.
  destruct a, b; simpl; try (split; [discriminate | contradiction]).
  apply Qle_bool_iff.
Qed.

Lemma geb_le (a b : num) : Num.geb a b = true <-> Num.le b a.
Proof. unfold Num.geb. apply leb_le. Qed.

Lemma ltb_false (a b : num) : Num.ltb a b = false <-> ~ Num.lt a b.
Proof. rewrite <- ltb_lt. destruct (Num.ltb a b); split; congruence. Qed.

Lemma geb_false (a b : num) : Num.geb a b = false <-> ~ Num.le b a.
Proof. rewrite <- geb_le. destruct (Num.geb a b); split; congruence. Qed.

(** [x < y] and [x - y < 0] agree, also when a side is [NaN]. *)
Lemma ltb_sub (a b : num) : Num.ltb a b = Num.ltb (Num.sub a b) (Fin 0).
Proof.
  destruct a as [x|], b as [y|]; simpl; try reflexivity.
  apply eq_true_iff_eq. rewrite !Qlt_bool_iff. split; intro; lra.
Qed.

Lemma Qsum_nonneg (l : list Q) : Forall (fun x => 0 <= x) l -> 0 <= Num.Qsum l.
Proof.
  induction 1 as [|x l Hx _ IH].
  - unfold Num.Qsum; simpl; lra.
  - change (0 <= x + Num.Qsum l). lra.
Qed.

(** The mean of a non-empty selection of non-negative values. *)
Lemma mean_nonneg (l : list Q) :
  l <> [] -> Forall (fun x => 0 <= x) l -> Num.le (Fin 0) (Num.mean l).
Proof.
  intros Hne Hpos. destruct l as [|x t]; [congruence|].
  unfold Num.mean, Num.le.
  apply Qle_shift_div_l.
  - change 0 with (inject_Z 0). rewrite <- Zlt_Qlt. simpl List.length. lia.
  - rewrite Qmult_0_l. now apply Qsum_nonneg.
Qed.

Lemma ge_na_last_iff (a b : num) : desc_na_last a b = true <-> Num.ge_na_last a b.
Proof.
  destruct a, b; simpl; try tauto; try apply Qle_bool_iff.
  split; [discriminate | contradiction].
Qed.

End NumFacts.

(** ** Data frames *)

Section SortFacts.

Context {A : Type} (leb : A -> A -> bool).

Lemma insert_by_perm (x : A) (l : list A) :
  Permutation (insert_by leb x l) (x :: l).
Proof.
  induction l as [|y t IH]; simpl.
  - apply Permutation_refl.
  - destruct (leb x y).
    + apply Permutation_refl.
    + eapply perm_trans; [apply perm_skip, IH | apply perm_swap].
Qed.

Lemma sort_by_perm (l : list A) : Permutation (sort_by leb l) l.
Proof.
  induction l as [|x t IH]; simpl.
  - constructor.
  - eapply perm_trans; [apply insert_by_perm | now apply perm_skip].
Qed.

Lemma sort_by_length (l : list A) : List.length (sort_by leb l) = List.length l.
Proof. apply Permutation_length, sort_by_perm. Qed.

Lemma sort_by_In (x : A) (l : list A) : In x (sort_by leb l) <-> In x l.
Proof.
  split; apply Permutation_in; [|apply Permutation_sym]; apply sort_by_perm.
Qed.

Hypothesis leb_total : forall x y, leb x y = true \/ leb y x = true.
Hypothesis leb_trans : forall x y z, leb x y = true -> leb y z = true -> leb x z = true.

Lemma insert_by_sorted (x : A) (l : list A) :
  StronglySorted (ordered_by leb) l -> StronglySorted (ordered_by leb) (insert_by leb x l).
Proof.
  induction 1 as [|y t Ht IH Hy]; simpl.
  - repeat constructor.
  - destruct (leb x y) eqn:Exy.
    + constructor; [now constructor|].
      constructor; [exact Exy|].
      eapply Forall_impl; [|exact Hy]. intros z Hz. now apply (leb_trans x y z).
    + constructor; [exact IH|].
      apply (Permutation_Forall (Permutation_sym (insert_by_perm x t))).
      constructor; [|exact Hy].
      destruct (leb_total x y) as [H|H]; [congruence | exact H].
Qed.

Lemma sort_by_sorted (l : list A) : StronglySorted (ordered_by leb) (sort_by leb l).
Proof.
  induction l as [|x t IH]; simpl.
  - constructor.
  - now apply insert_by_sorted.
Qed.

End SortFacts.

Section UniqueFacts.

Context {K : Type} (eqb : K -> K -> bool).
Hypothesis eqb_eq : forall x y, eqb x y = true <-> x = y.

Lemma unique_In (x : K) (l : list K) : In x (unique eqb l) <-> In x l.
Proof.
  induction l as [|y t IH]; simpl; [tauto|].
  rewrite filter_In, IH, negb_true_iff.
  split.
  - tauto.
  - intros [->|Hin]; [now left|].
    destruct (eqb y x) eqn:E; [left; now apply eqb_eq | right; now split].
Qed.

Lemma unique_NoDup (l : list K) : NoDup (unique eqb l).
Proof.
  induction l as [|y t IH]; simpl; constructor.
  - rewrite filter_In, negb_true_iff. intros [_ E].
    assert (eqb y y = true) by now apply eqb_eq. congruence.
  - now apply NoDup_filter.
Qed.

(** Selecting one key from a duplicate-free column. *)
Lemma filter_key_NoDup (k : K) (l : list K) :
  NoDup l -> filter (fun x => eqb x k) l = if isin eqb k l then [k] else [].
Proof.
  unfold isin. induction 1 as [|y t Hy Ht IH]; simpl; [reflexivity|].
  destruct (eqb y k) eqn:E.
  - apply eqb_eq in E. subst y.
    assert (eqb k k = true) as -> by now apply eqb_eq. simpl.
    f_equal. rewrite IH.
    destruct (existsb (eqb k) t) eqn:Ex; [|reflexivity].
    apply existsb_exists in Ex. destruct Ex as (z & Hz & Ez).
    apply eqb_eq in Ez. subst z. contradiction.
  - rewrite IH. destruct (eqb k y) eqn:E'; [|reflexivity].
    apply eqb_eq in E'. subst y.
    assert (eqb k k = true) by now apply eqb_eq. congruence.
Qed.

Lemma isin_In (k : K) (l : list K) : isin eqb k l = true <-> In k l.
Proof.
  unfold isin. rewrite existsb_exists. split.
  - intros (z & Hz & Ez). apply eqb_eq in Ez. now subst.
  - intro Hin. exists k. split; [exact Hin | now apply eqb_eq].
Qed.

Lemma isin_ext (k : K) (l l' : list K) :
  (In k l <-> In k l') -> isin eqb k l = isin eqb k l'.
Proof.
  intro H. apply eq_true_iff_eq. now rewrite !isin_In.
Qed.

Variable leb : K -> K -> bool.

(** A [groupby] table holds one row for a key that occurs, none otherwise. *)
Lemma group_keys_select (k : K) (keys : list K) :
  filter (fun x => eqb x k) (group_keys eqb leb keys)
  = if isin eqb k keys then [k] else [].
Proof.
  unfold group_keys. rewrite filter_key_NoDup.
  - rewrite (isin_ext k _ keys); [reflexivity|].
    now rewrite sort_by_In, unique_In.
  - apply (Permutation_NoDup (Permutation_sym (sort_by_perm leb _))).
    apply unique_NoDup.
Qed.

(** A key occurs exactly when its group has a row. *)
Lemma isin_group {R : Type} (key : R -> K) (k : K) (rows : list R) :
  isin eqb k (map key rows) = negb (empty (filter (fun r => eqb (key r) k) rows)).
Proof.
  unfold isin. induction rows as [|r t IH]; simpl; [reflexivity|].
  destruct (eqb (key r) k) eqn:E.
  - apply eqb_eq in E. rewrite E.
    assert (eqb k k = true) as -> by now apply eqb_eq. reflexivity.
  - rewrite IH. destruct (eqb k (key r)) eqn:E'; [|reflexivity].
    apply eqb_eq in E'. rewrite <- E' in E.
    assert (eqb k k = true) by now apply eqb_eq. congruence.
Qed.

End UniqueFacts.

(** ** The two derived tables *)

Lemma demand_key_eqb_eq (a b : DemandKey) : demand_key_eqb a b = true <-> a = b.
Proof.
  destruct a as [[h1 m1] t1], b as [[h2 m2] t2]. simpl.
  rewrite !andb_true_iff, !String.eqb_eq, Z.eqb_eq.
  split; [intros [[-> ->] ->]; reflexivity | intro E; injection E; auto].
Qed.

Lemma lane_key_eqb_eq (a b : LaneKey) : lane_key_eqb a b = true <-> a = b.
Proof.
  destruct a as [[[o1 d1] c1] s1], b as [[[o2 d2] c2] s2]. simpl.
  rewrite !andb_true_iff, !String.eqb_eq.
  split; [intros [[[-> ->] ->] ->]; reflexivity | intro E; injection E; auto].
Qed.

(** The query on the demand baseline finds the mean of the key's records,
    when the key has any. *)
Lemma baseline_demand_query (hc_df : list DemandRecord) (h m : string) (t : Z) :
  filter (fun b => String.eqb (bl_Hospital b) h && String.eqb (bl_Medicine b) m
                   && Z.eqb (bl_Month b) t) (baseline_demand hc_df)
  = if empty (demand_group hc_df h m t) then []
    else [ {| bl_Hospital := h; bl_Medicine := m; bl_Month := t;
              pred_monthly_demand := Num.mean (map Demand (demand_group hc_df h m t)) |} ].
Proof.
  unfold baseline_demand. rewrite filter_map_swap.
  rewrite (filter_ext _ (fun k => demand_key_eqb k (h, m, t)))
    by (intros [[h' m'] t']; reflexivity).
  rewrite (group_keys_select _ demand_key_eqb_eq).
  rewrite (isin_group _ demand_key_eqb_eq).
  change (filter (fun r => demand_key_eqb (demand_key r) (h, m, t)) hc_df)
    with (demand_group hc_df h m t).
  destruct (empty (demand_group hc_df h m t)); reflexivity.
Qed.

(** The same for the lane statistics computed from the shipments. *)
Lemma compute_lane_stats_query (sc_shipments : list Shipment) (o d c s : string) :
  filter (fun x => String.eqb (ls_Origin x) o && String.eqb (ls_Destination x) d
                   && String.eqb (ls_Carrier x) c && String.eqb (ls_ServiceLevel x) s)
         (compute_lane_stats sc_shipments)
  = let g := lane_group sc_shipments o d c s in
    if empty g then []
    else [ {| ls_Origin := o; ls_Destination := d; ls_Carrier := c; ls_ServiceLevel := s;
              ls_on_time_prob := Num.mean (map (fun r => Num.of_bool (OnTimeDelivery r)) g);
              ls_est_cost := Num.mean (map ShipmentCost g);
              ls_avg_dist := Num.mean (map Distance g);
              ls_n := List.length g |} ].
Proof.
  unfold compute_lane_stats. rewrite filter_map_swap.
  rewrite (filter_ext _ (fun k => lane_key_eqb k (o, d, c, s)))
    by (intros [[[o' d'] c'] s']; reflexivity).
  rewrite (group_keys_select _ lane_key_eqb_eq).
  rewrite (isin_group _ lane_key_eqb_eq).
  change (filter (fun r => lane_key_eqb (lane_key r) (o, d, c, s)) sc_shipments)
    with (lane_group sc_shipments o d c s).
  cbv zeta. destruct (empty (lane_group sc_shipments o d c s)); reflexivity.
Qed.

(** The demand baseline has an entry for a key exactly when some record
    has the key, and the entry is the mean demand of those records. *)
Lemma baseline_entry (hc_df : list DemandRecord) (h m : string) (t : Z) (b : Baseline) :
  In b (baseline_demand hc_df)
  /\ bl_Hospital b = h /\ bl_Medicine b = m /\ bl_Month b = t
  <-> demand_group hc_df h m t <> []
      /\ b = {| bl_Hospital := h; bl_Medicine := m; bl_Month := t;
                pred_monthly_demand :=
                  Num.mean (map Demand (demand_group hc_df h m t)) |}.
Proof.
  pose proof (baseline_demand_query hc_df h m t) as Hq.
  assert (Hsel : In b (baseline_demand hc_df)
                 /\ bl_Hospital b = h /\ bl_Medicine b = m /\ bl_Month b = t
                 <-> In b (filter (fun b => String.eqb (bl_Hospital b) h
                                            && String.eqb (bl_Medicine b) m
                                            && Z.eqb (bl_Month b) t)
                                  (baseline_demand hc_df))).
  { rewrite filter_In, !andb_true_iff, !String.eqb_eq, Z.eqb_eq. tauto. }
  rewrite Hsel, Hq.
  destruct (demand_group hc_df h m t) as [|r g]; simpl.
  - split; [contradiction | intros [Hne _]; congruence].
  - split.
    + intros [<-|[]]. split; [discriminate | reflexivity].
    + intros [_ ->]. now left.
Qed.

(** The default of [iloc0] plays no role on a selection that has a row. *)
Lemma iloc0_nonempty {A : Type} (d d' : A) (l : list A) :
  empty l = false -> iloc0 d l = iloc0 d' l.
Proof. destruct l; [discriminate | reflexivity]. Qed.

(** The region is that of the hospital's first record, ["MW"] without one;
    the lookup never runs on an empty selection. *)
Lemma region_of_spec (hc_df : list DemandRecord) (hospital : string) :
  match filter (fun r => String.eqb (Hospital r) hospital) hc_df with
  | r :: _ => region_of hc_df hospital = Region r
  | [] => region_of hc_df hospital = "MW"
  end.
Proof.
  unfold region_of.
  rewrite (isin_ext _ String.eqb_eq hospital _ (map Hospital hc_df))
    by apply (unique_In _ String.eqb_eq).
  rewrite (isin_group _ String.eqb_eq).
  destruct (filter _ hc_df); reflexivity.
Qed.

(** ** The decision rule *)

(** [run] stores the two flags computed from the two estimations. *)
Lemma run_flags sc_shipments hc_df lane_stats_csv models
      hospital medicine month origin destination carrier service
      current_inventory lead_time_days stops weight distance_input :
  let a := run sc_shipments hc_df lane_stats_csv models hospital medicine month
               origin destination carrier service
               current_inventory lead_time_days stops weight distance_input in
  (out_demand_pred a, out_shortage_prob a, out_buffer_need a, out_inventory_gap a)
    = predict_demand_and_risk hc_df models hospital medicine month
                              current_inventory lead_time_days
  /\ (out_distance a, out_on_time_prob a, out_cost_est a)
    = estimate_lane sc_shipments lane_stats_csv models origin destination carrier service
                    (Some (inject_Z distance_input)) weight stops
  /\ out_order_now a = order_now (out_shortage_prob a) (out_inventory_gap a)
  /\ out_risk_flag a = risk_flag (out_on_time_prob a).
Proof.
  unfold run.
  destruct (predict_demand_and_risk _ _ _ _ _ _ _) as [[[dp sp] bn] gap].
  destruct (estimate_lane _ _ _ _ _ _ _ _ _ _) as [[dist otp] ce].
  simpl. repeat split.
Qed.

(** The boolean [or] of the two comparisons, as a disjunction. *)
Lemma order_now_true_iff (shortage_prob inventory_gap : num) :
  order_now shortage_prob inventory_gap = true
  <-> Num.le (Fin 0.5) shortage_prob \/ Num.lt inventory_gap (Fin 0).
Proof.
  unfold order_now.
  now rewrite orb_true_iff, NumFacts.geb_le, NumFacts.ltb_lt.
Qed.

(** C1.  The order decision is the disjunction of the two signals:
    [order_now] holds exactly when [shortage_prob >= 0.5] or
    [inventory_gap < 0]; a negative gap alone triggers it, whatever the
    shortage probability is. *)
Theorem order_now_is_or (shortage_prob inventory_gap : num) :
  (order_now shortage_prob inventory_gap = true
     <-> Num.le (Fin 0.5) shortage_prob \/ Num.lt inventory_gap (Fin 0))
  /\ (Num.lt inventory_gap (Fin 0) -> order_now shortage_prob inventory_gap = true).
Proof.
  split.
  - apply order_now_true_iff.
  - intro Hgap. apply order_now_true_iff. now right.
Qed.

Lemma order_now_is_or_witness :
  order_now NaN (Fin (-20)) = true /\ order_now (Fin 0.2) (Fin (-20)) = true.
Proof.
  split.
  - apply (order_now_is_or NaN (Fin (-20))). simpl. reflexivity.
  - apply (order_now_is_or (Fin 0.2) (Fin (-20))). simpl. reflexivity.
Defined.

(** C3.  [risk_flag] holds exactly when [on_time_prob < 0.7]; the
    inequality is strict, so a probability equal to 0.7 does not raise it. *)
Theorem risk_flag_strict (on_time_prob : num) :
  (risk_flag on_time_prob = true <-> Num.lt on_time_prob (Fin 0.7))
  /\ (forall q : Q, q == 0.7 -> risk_flag (Fin q) = false).
Proof.
  unfold risk_flag. split.
  - apply NumFacts.ltb_lt.
  - intros q Hq. apply NumFacts.ltb_false. simpl. lra.
Qed.

Lemma risk_flag_strict_witness :
  risk_flag (Fin (14 # 20)) = false /\ risk_flag (Fin 0.7) = false.
Proof.
  split.
  - apply (risk_flag_strict NaN). reflexivity.
  - apply (risk_flag_strict NaN). reflexivity.
Defined.

(** ** Demand and shortage *)

Section DemandAndRisk.

Variable hc_df : list DemandRecord.
Variable models : Models.
Variables hospital medicine : string.
Variables month current_inventory lead_time_days : Z.



End DemandAndRisk.

(** The two scenarios of the specification: a baseline of 300 units, a lead
    time of 7 days, and an inventory of 150, then 50, units. *)
Example scenario_wait :
  let a := run Sample.sc_shipments Sample.hc_df None Sample.no_models
               "GenHosp" "InsulinX" 6 "CHI" "NYC" "Swift" "Standard" 150 7 1 35000 0 in
  Num.eqv (out_demand_pred a) (Fin 300) /\ Num.eqv (out_buffer_need a) (Fin 70)
  /\ Num.eqv (out_inventory_gap a) (Fin 80) /\ out_shortage_prob a = Fin 0.2
  /\ out_order_now a = false.
Proof. vm_compute. repeat split. Qed.

Example scenario_order :
  let a := run Sample.sc_shipments Sample.hc_df None Sample.no_models
               "GenHosp" "InsulinX" 6 "CHI" "NYC" "Swift" "Standard" 50 7 1 35000 0 in
  Num.eqv (out_inventory_gap a) (Fin (-20)) /\ out_shortage_prob a = Fin 0.8
  /\ out_order_now a = true.
Proof. vm_compute. repeat split. Qed.

(** A medicine without records: the mean of an empty selection. *)
Example unknown_medicine :
  predict_demand_and_risk Sample.hc_df Sample.no_models "GenHosp" "Nope" 3 50 7
  = (NaN, Fin 0.2, NaN, NaN).
Proof. reflexivity. Qed.

(** The exact comparison of an [int] with a float, as a proposition. *)
Lemma int_ltb_lt (i : Z) (x : float) : B64.int_ltb i x = true <-> B64.int_lt i x.
Proof.
  unfold B64.int_ltb, B64.int_lt. destruct (B64.value x); try tauto.
  - apply NumFacts.Qlt_bool_iff.
  - split; [discriminate | contradiction].
  - split; [discriminate | contradiction].
Qed.

(** The two scenarios of the specification in binary64, where their
    numbers are exact: a baseline of 300, a lead time of 7 days and an
    inventory of 150, then 50. *)
Example scenario_wait_b64 :
  B64.predict_demand_and_risk SampleB64.mean_left_to_right SampleB64.mean_left_to_right
                              SampleB64.hc_df_300 SampleB64.no_models
                              "GenHosp" "InsulinX" 6 150 7
  = (300, 0.2, 70, 80)%float
  /\ B64.order_now 0.2 80 = false.
Proof. split; vm_compute; reflexivity. Qed.

Example scenario_order_b64 :
  B64.predict_demand_and_risk SampleB64.mean_left_to_right SampleB64.mean_left_to_right
                              SampleB64.hc_df_300 SampleB64.no_models
                              "GenHosp" "InsulinX" 6 50 7
  = (300, 0.8, 70, -20)%float
  /\ B64.order_now 0.8 (-20) = true.
Proof. split; vm_compute; reflexivity. Qed.

(** C2.  Whatever produced [demand_pred] (a model, the exact baseline or
    the medicine-wide mean, whatever the two means compute), the returned
    [buffer_need] is the binary64 value of
    [(demand_pred / 30.0) * lead_time_days] and the returned [inventory_gap]
    the binary64 value of [current_inventory - buffer_need], both from the
    returned [demand_pred]. *)
Theorem gap_is_inventory_minus_buffer
    group_mean series_mean hc_df models hospital medicine month
    current_inventory lead_time_days :
  let '(demand_pred, _, buffer_need, inventory_gap) :=
    B64.predict_demand_and_risk group_mean series_mean hc_df models
                                hospital medicine month
                                current_inventory lead_time_days in
  buffer_need = (demand_pred / 30.0 * B64.of_int lead_time_days)%float
  /\ inventory_gap = (B64.of_int current_inventory - buffer_need)%float.
Proof.
  unfold B64.predict_demand_and_risk. cbv zeta. split; reflexivity.
Qed.

(** At a demand of 62, a lead time of 15 days and an inventory of 31 the
    buffer is not 31 but the float above it, and the gap is negative. *)
Lemma gap_is_inventory_minus_buffer_witness :
  let '(demand_pred, _, buffer_need, inventory_gap) :=
    B64.predict_demand_and_risk SampleB64.mean_left_to_right
                                SampleB64.mean_left_to_right
                                SampleB64.hc_df SampleB64.no_models
                                "GenHosp" "InsulinX" 6 31 15 in
  demand_pred = 62%float
  /\ buffer_need = 31.000000000000004%float
  /\ inventory_gap = (-3.5527136788005009e-15)%float.
Proof.
  pose proof (gap_is_inventory_minus_buffer SampleB64.mean_left_to_right
                SampleB64.mean_left_to_right SampleB64.hc_df SampleB64.no_models
                "GenHosp" "InsulinX" 6 31 15) as H.
  destruct (B64.predict_demand_and_risk _ _ _ _ _ _ _ _ _) as [[[dp sp] bn] gap] eqn:E.
  assert (Hdp : dp = 62%float) by (vm_compute in E; congruence).
  destruct H as [Hbn Hgap]. rewrite Hgap, Hbn, Hdp.
  split; [reflexivity|]. split; vm_compute; reflexivity.
Defined.

(** C4.  The demand comes from the first of three sources that is
    available: the registered demand model, on the feature row of the
    query; else the demand baseline entry of (hospital, medicine, month),
    which is the mean demand of the records with that key; else the mean
    demand of all records of the medicine, whatever their hospital and
    month. *)
Theorem demand_three_tier
    hc_df models hospital medicine month current_inventory lead_time_days :
  let '(demand_pred, _, _, _) :=
    predict_demand_and_risk hc_df models hospital medicine month
                            current_inventory lead_time_days in
  (forall reg, hc_demand models = Some reg ->
     demand_pred = reg {| x_Hospital := hospital; x_Region := region_of hc_df hospital;
                          x_Medicine := medicine; x_Month := month;
                          x_Inventory := current_inventory;
                          x_LeadTimeDays := lead_time_days |})
  /\ (hc_demand models = None ->
      forall b, In b (demand_baseline hc_df) ->
                bl_Hospital b = hospital -> bl_Medicine b = medicine ->
                bl_Month b = month ->
      demand_pred = pred_monthly_demand b
      /\ pred_monthly_demand b
         = Num.mean (map Demand (demand_group hc_df hospital medicine month)))
  /\ (hc_demand models = None ->
      (forall b, In b (demand_baseline hc_df) ->
                 ~ (bl_Hospital b = hospital /\ bl_Medicine b = medicine
                    /\ bl_Month b = month)) ->
      demand_pred
      = Num.mean (map Demand (filter (fun r => String.eqb (Medicine r) medicine) hc_df))).
Proof.
  unfold predict_demand_and_risk, demand_baseline. cbv zeta.
  rewrite baseline_demand_query.
  split; [|split].
  - intros reg ->. reflexivity.
  - intros -> b Hin Hh Hm Ht.
    destruct (proj1 (baseline_entry hc_df hospital medicine month b)) as [Hne ->];
      [tauto|].
    destruct (demand_group hc_df hospital medicine month); [congruence|].
    split; reflexivity.
  - intros -> Hnone.
    destruct (demand_group hc_df hospital medicine month) as [|r g] eqn:Eg;
      [reflexivity|].
    exfalso.
    set (row := {| bl_Hospital := hospital; bl_Medicine := medicine; bl_Month := month;
                   pred_monthly_demand :=
                     Num.mean (map Demand (demand_group hc_df hospital medicine month)) |}).
    apply (Hnone row).
    + apply (baseline_entry hc_df hospital medicine month row).
      split; [rewrite Eg; discriminate | reflexivity].
    + repeat split.
Qed.

Lemma demand_three_tier_witness :
  (exists q, q == 300
     /\ fst (fst (fst (predict_demand_and_risk Sample.hc_df Sample.no_models
                         "GenHosp" "InsulinX" 6 150 7))) = Fin q)
  /\ (exists q, q == 360
     /\ fst (fst (fst (predict_demand_and_risk Sample.hc_df Sample.no_models
                         "GenHosp" "InsulinX" 3 150 7))) = Fin q)
  /\ fst (fst (fst (predict_demand_and_risk Sample.hc_df Sample.with_demand_model
                       "GenHosp" "InsulinX" 3 150 7))) = Fin (200 - 25 * inject_Z 3).
Proof.
  split; [|split].
  - pose proof (demand_three_tier Sample.hc_df Sample.no_models
                  "GenHosp" "InsulinX" 6 150 7) as H.
    destruct (predict_demand_and_risk _ _ _ _ _ _ _) as [[[dp sp] bn] gap].
    destruct H as (_ & H & _).
    destruct (H eq_refl {| bl_Hospital := "GenHosp"; bl_Medicine := "InsulinX";
                           bl_Month := 6; pred_monthly_demand := Fin (600 # 2) |})
      as [Hdp _]; try reflexivity.
    + vm_compute. left. reflexivity.
    + exists (600 # 2). split; [reflexivity | exact Hdp].
  - pose proof (demand_three_tier Sample.hc_df Sample.no_models
                  "GenHosp" "InsulinX" 3 150 7) as H.
    destruct (predict_demand_and_risk _ _ _ _ _ _ _) as [[[dp sp] bn] gap].
    destruct H as (_ & _ & H).
    exists (1440 # 4). split; [reflexivity|].
    simpl. rewrite H; [vm_compute; reflexivity | reflexivity |].
    intros b Hin (_ & _ & Hmonth). vm_compute in Hin.
    repeat (destruct Hin as [<-|Hin]; [discriminate Hmonth|]). exact Hin.
  - pose proof (demand_three_tier Sample.hc_df Sample.with_demand_model
                  "GenHosp" "InsulinX" 3 150 7) as H.
    destruct (predict_demand_and_risk _ _ _ _ _ _ _) as [[[dp sp] bn] gap].
    destruct H as (H & _). simpl. rewrite (H _ eq_refl). reflexivity.
Defined.

(** C5.  Without a shortage classifier, [shortage_prob] is 0.8 when
    [current_inventory] is less than the binary64 value of
    [(demand_pred / 30.0) * lead_time_days], and 0.2 otherwise (so also
    when that value is [nan]); no other value comes out of this branch. *)
Theorem shortage_heuristic_is_binary
    group_mean series_mean hc_df models hospital medicine month
    current_inventory lead_time_days :
  B64.hc_risk models = None ->
  let '(demand_pred, shortage_prob, _, _) :=
    B64.predict_demand_and_risk group_mean series_mean hc_df models
                                hospital medicine month
                                current_inventory lead_time_days in
  let threshold := (demand_pred / 30.0 * B64.of_int lead_time_days)%float in
  (B64.int_lt current_inventory threshold -> shortage_prob = 0.8%float)
  /\ (~ B64.int_lt current_inventory threshold -> shortage_prob = 0.2%float)
  /\ (shortage_prob = 0.8%float \/ shortage_prob = 0.2%float).
Proof.
  intro Hnone. unfold B64.predict_demand_and_risk. cbv zeta. rewrite Hnone.
  set (threshold := (_ / 30.0 * B64.of_int lead_time_days)%float).
  destruct (B64.int_ltb current_inventory threshold) eqn:E.
  - apply int_ltb_lt in E. repeat split; auto. intro; contradiction.
  - assert (Hn : ~ B64.int_lt current_inventory threshold)
      by (rewrite <- int_ltb_lt; congruence).
    repeat split; auto. intro; contradiction.
Qed.

(** At a demand of 62, a lead time of 15 days and an inventory of 31 the
    threshold is 31.000000000000004, above the inventory: 0.8. *)
Lemma shortage_heuristic_is_binary_witness :
  let '(_, shortage_prob, _, inventory_gap) :=
    B64.predict_demand_and_risk SampleB64.mean_left_to_right
                                SampleB64.mean_left_to_right
                                SampleB64.hc_df SampleB64.no_models
                                "GenHosp" "InsulinX" 6 31 15 in
  shortage_prob = 0.8%float /\ B64.order_now shortage_prob inventory_gap = true.
Proof.
  pose proof (shortage_heuristic_is_binary SampleB64.mean_left_to_right
                SampleB64.mean_left_to_right SampleB64.hc_df SampleB64.no_models
                "GenHosp" "InsulinX" 6 31 15 eq_refl) as H.
  destruct (B64.predict_demand_and_risk _ _ _ _ _ _ _ _ _) as [[[dp sp] bn] gap] eqn:E.
  assert (Hdp : dp = 62%float) by (vm_compute in E; congruence).
  assert (Hgap : gap = (-3.5527136788005009e-15)%float) by (vm_compute in E; congruence).
  subst dp gap. cbv zeta in H. destruct H as (Hlow & _ & _).
  rewrite Hlow; [split; reflexivity | vm_compute; reflexivity].
Defined.




Lemma mean_Demand_nonneg (rows : list DemandRecord) :
  rows <> [] -> Forall (fun r => 0 <= Demand r) rows ->
  Num.le (Fin 0) (Num.mean (map Demand rows)).
Proof.
  intros Hne Hpos. apply NumFacts.mean_nonneg.
  - destruct rows; [congruence | discriminate].
  - apply Forall_map. exact Hpos.
Qed.




(** ** Lane estimation *)

Section Lane.

Variable sc_shipments : list Shipment.
Variable lane_stats_csv : option (list LaneStat).
Variable models : Models.
Variables origin destination carrier service : string.
Variable distance_override : option Q.
Variable weight : Q.
Variable stops : Z.

(** The distance does not depend on the models or on the lane statistics. *)
Lemma returned_distance :
  let '(distance, _, _) :=
    estimate_lane sc_shipments lane_stats_csv models origin destination carrier service
                  distance_override weight stops in
  let lane := lane_records sc_shipments origin destination in
  let auto :=
    if (5 <=? List.length lane)%nat then Num.mean (map Distance lane) else Fin 800.0 in
  distance = match distance_override with
             | Some d => if negb (Qeq_bool d 0) && Num.Qlt_bool 0 d then Fin d else auto
             | None => auto
             end.
Proof.
  unfold estimate_lane. cbv zeta.
  destruct (sc_on_time models), (sc_cost models);
    try reflexivity; destruct (empty _); reflexivity.
Qed.

(** The statistics branch, when the query on the lane statistics is empty. *)
Lemma returned_fallback :
  sc_on_time models = None \/ sc_cost models = None ->
  filter (fun s => String.eqb (ls_Origin s) origin
                   && String.eqb (ls_Destination s) destination
                   && String.eqb (ls_Carrier s) carrier
                   && String.eqb (ls_ServiceLevel s) service)
         (lane_stats sc_shipments lane_stats_csv) = [] ->
  let '(_, on_time_prob, cost_est) :=
    estimate_lane sc_shipments lane_stats_csv models origin destination carrier service
                  distance_override weight stops in
  let lane := lane_records sc_shipments origin destination in
  on_time_prob = (if empty lane then Fin 0.65
                  else Num.mean (map (fun r => Num.of_bool (OnTimeDelivery r)) lane))
  /\ cost_est = (if empty lane then Fin 300.0
                 else Num.mean (map ShipmentCost lane)).
Proof.
  intros Hpair Hmiss. unfold estimate_lane. cbv zeta. rewrite Hmiss.
  fold (lane_records sc_shipments origin destination).
  destruct (sc_on_time models), (sc_cost models);
    try (destruct Hpair; discriminate);
    simpl; destruct (empty (lane_records sc_shipments origin destination));
    split; reflexivity.
Qed.

End Lane.

Lemma override_positive (d : Q) :
  negb (Qeq_bool d 0) && Num.Qlt_bool 0 d = true <-> 0 < d.
Proof.
  rewrite andb_true_iff, negb_true_iff, NumFacts.Qlt_bool_iff.
  split; [tauto|]. intro Hd. split; [|exact Hd].
  destruct (Qeq_bool d 0) eqn:E; [|reflexivity].
  apply Qeq_bool_iff in E. lra.
Qed.

(** C6.  A positive [distance_override] is the distance.  Otherwise, and
    so for an override of 0, the distance is the mean [Distance] of the
    shipments of (origin, destination) when there are at least 5 of them,
    and the default 800 when there are fewer. *)
Theorem distance_resolution
    sc_shipments lane_stats_csv models origin destination carrier service
    distance_override weight stops :
  let '(distance, _, _) :=
    estimate_lane sc_shipments lane_stats_csv models origin destination carrier service
                  distance_override weight stops in
  let lane := lane_records sc_shipments origin destination in
  (forall d, distance_override = Some d -> 0 < d -> distance = Fin d)
  /\ (distance_override = None \/ (exists d, distance_override = Some d /\ d <= 0) ->
      ((5 <= List.length lane)%nat -> distance = Num.mean (map Distance lane))
      /\ ((List.length lane < 5)%nat -> distance = Fin 800.0)).
Proof.
  pose proof (returned_distance sc_shipments lane_stats_csv models origin destination
                carrier service distance_override weight stops) as H.
  destruct (estimate_lane _ _ _ _ _ _ _ _ _ _) as [[distance otp] ce].
  cbv zeta in *. split.
  - intros d -> Hd. rewrite H.
    now rewrite (proj2 (override_positive d) Hd).
  - intros Hauto.
    assert (Hdist : distance =
                    if (5 <=? List.length (lane_records sc_shipments origin destination))%nat
                    then Num.mean (map Distance (lane_records sc_shipments origin destination))
                    else Fin 800.0).
    { destruct Hauto as [->|(d & -> & Hd)]; [exact H|].
      destruct (negb (Qeq_bool d 0) && Num.Qlt_bool 0 d) eqn:E; [|exact H].
      apply override_positive in E. lra. }
    rewrite Hdist. split; intro Hlen.
    + now rewrite (proj2 (Nat.leb_le _ _) Hlen).
    + now rewrite (proj2 (Nat.leb_gt _ _) Hlen).
Qed.

Lemma distance_resolution_witness :
  fst (fst (estimate_lane Sample.sc_shipments None Sample.no_models
              "DAL" "SEA" "Acme" "Express" (Some 0) 35000 1)) = Fin 800.0
  /\ fst (fst (estimate_lane Sample.sc_shipments None Sample.no_models
              "CHI" "NYC" "Acme" "Express" (Some 0) 35000 1)) = Fin (4000 # 5)
  /\ fst (fst (estimate_lane Sample.sc_shipments None Sample.no_models
              "CHI" "NYC" "Acme" "Express" (Some 12.5) 35000 1)) = Fin 12.5.
Proof.
  split; [|split].
  - pose proof (distance_resolution Sample.sc_shipments None Sample.no_models
                  "DAL" "SEA" "Acme" "Express" (Some 0) 35000 1) as H.
    destruct (estimate_lane _ _ _ _ _ _ _ _ _ _) as [[distance otp] ce].
    cbv zeta in H. destruct H as [_ H]. simpl. apply H.
    + right. exists 0. split; [reflexivity | lra].
    + vm_compute. lia.
  - pose proof (distance_resolution Sample.sc_shipments None Sample.no_models
                  "CHI" "NYC" "Acme" "Express" (Some 0) 35000 1) as H.
    destruct (estimate_lane _ _ _ _ _ _ _ _ _ _) as [[distance otp] ce].
    cbv zeta in H. destruct H as [_ H]. simpl.
    destruct H as [H _]; [right; exists 0; split; [reflexivity | lra]|].
    rewrite H; [vm_compute; reflexivity | vm_compute; lia].
  - pose proof (distance_resolution Sample.sc_shipments None Sample.no_models
                  "CHI" "NYC" "Acme" "Express" (Some 12.5) 35000 1) as H.
    destruct (estimate_lane _ _ _ _ _ _ _ _ _ _) as [[distance otp] ce].
    cbv zeta in H. destruct H as [H _]. simpl. apply H; [reflexivity | lra].
Defined.

(** C7.  In the statistics branch, taken unless both the on-time
    classifier and the cost regressor are present, a query on the lane
    statistics that finds no row for (origin, destination, carrier, service)
    falls back to the mean [OnTimeDelivery] and mean [ShipmentCost] of the
    shipments of (origin, destination); with no such shipment the result is
    (0.65, 300.0). *)
Theorem lane_statistic_miss_fallback
    sc_shipments lane_stats_csv models origin destination carrier service
    distance_override weight stops :
  sc_on_time models = None \/ sc_cost models = None ->
  (forall s, In s (lane_stats sc_shipments lane_stats_csv) ->
             ~ (ls_Origin s = origin /\ ls_Destination s = destination
                /\ ls_Carrier s = carrier /\ ls_ServiceLevel s = service)) ->
  let '(_, on_time_prob, cost_est) :=
    estimate_lane sc_shipments lane_stats_csv models origin destination carrier service
                  distance_override weight stops in
  let lane_only := lane_records sc_shipments origin destination in
  (lane_only <> [] ->
     on_time_prob = Num.mean (map (fun r => Num.of_bool (OnTimeDelivery r)) lane_only)
     /\ cost_est = Num.mean (map ShipmentCost lane_only))
  /\ (lane_only = [] -> on_time_prob = Fin 0.65 /\ cost_est = Fin 300.0).
Proof.
  intros Hpair Hmiss.
  assert (Hnil : filter (fun s => String.eqb (ls_Origin s) origin
                                  && String.eqb (ls_Destination s) destination
                                  && String.eqb (ls_Carrier s) carrier
                                  && String.eqb (ls_ServiceLevel s) service)
                        (lane_stats sc_shipments lane_stats_csv) = []).
  { destruct (filter _ _) as [|s rest] eqn:E; [reflexivity|]. exfalso.
    assert (Hin : In s (s :: rest)) by now left.
    rewrite <- E in Hin. apply filter_In in Hin. destruct Hin as [Hin Hkey].
    rewrite !andb_true_iff, !String.eqb_eq in Hkey.
    apply (Hmiss s Hin). tauto. }
  pose proof (returned_fallback sc_shipments lane_stats_csv models origin destination
                carrier service distance_override weight stops Hpair Hnil) as H.
  destruct (estimate_lane _ _ _ _ _ _ _ _ _ _) as [[distance otp] ce].
  cbv zeta. destruct H as [Hotp Hce].
  destruct (lane_records sc_shipments origin destination) as [|r t].
  - split; [congruence | intros _; now split].
  - split; [intros _; now split | discriminate].
Qed.

Lemma lane_statistic_miss_fallback_witness :
  snd (estimate_lane Sample.sc_shipments None Sample.on_time_only
         "DAL" "NYC" "Swift" "Express" (Some 0) 35000 1) = Fin 300.0
  /\ snd (fst (estimate_lane Sample.sc_shipments None Sample.on_time_only
                 "DAL" "NYC" "Swift" "Express" (Some 0) 35000 1)) = Fin 0.65
  /\ snd (fst (estimate_lane Sample.sc_shipments None Sample.on_time_only
                 "DAL" "SEA" "Swift" "Express" (Some 0) 35000 1)) = Fin (2 # 4).
Proof.
  assert (Hmiss : forall o, forall s,
            In s (lane_stats Sample.sc_shipments None) ->
            ~ (ls_Origin s = o /\ ls_Destination s = "NYC"
               /\ ls_Carrier s = "Swift" /\ ls_ServiceLevel s = "Express")).
  { intros o s Hin (_ & Hd & Hc & Hs). vm_compute in Hin.
    repeat (destruct Hin as [<-|Hin]; [discriminate|]). exact Hin. }
  assert (Hmiss' : forall s,
            In s (lane_stats Sample.sc_shipments None) ->
            ~ (ls_Origin s = "DAL" /\ ls_Destination s = "SEA"
               /\ ls_Carrier s = "Swift" /\ ls_ServiceLevel s = "Express")).
  { intros s Hin (_ & Hd & Hc & Hs). vm_compute in Hin.
    repeat (destruct Hin as [<-|Hin]; [discriminate|]). exact Hin. }
  pose proof (lane_statistic_miss_fallback Sample.sc_shipments None Sample.on_time_only
                "DAL" "NYC" "Swift" "Express" (Some 0) 35000 1
                (or_intror eq_refl) (Hmiss "DAL")) as H1.
  pose proof (lane_statistic_miss_fallback Sample.sc_shipments None Sample.on_time_only
                "DAL" "SEA" "Swift" "Express" (Some 0) 35000 1
                (or_intror eq_refl) Hmiss') as H2.
  destruct (estimate_lane _ _ _ "DAL" "NYC" _ _ _ _ _) as [[d1 otp1] ce1].
  destruct (estimate_lane _ _ _ "DAL" "SEA" _ _ _ _ _) as [[d2 otp2] ce2].
  cbv zeta in H1, H2. simpl.
  destruct H1 as [_ H1]. destruct (H1 eq_refl) as [-> ->].
  destruct H2 as [H2 _]. destruct H2 as [-> _]; [vm_compute; discriminate|].
  split; [reflexivity|]. split; [reflexivity|]. vm_compute. reflexivity.
Defined.

(** The statistics branch when the query finds a row: the first row's
    columns are returned. *)
Lemma lane_statistic_hit
    sc_shipments lane_stats_csv models origin destination carrier service
    distance_override weight stops s rest :
  sc_on_time models = None \/ sc_cost models = None ->
  filter (fun s => String.eqb (ls_Origin s) origin
                   && String.eqb (ls_Destination s) destination
                   && String.eqb (ls_Carrier s) carrier
                   && String.eqb (ls_ServiceLevel s) service)
         (lane_stats sc_shipments lane_stats_csv) = s :: rest ->
  let '(_, on_time_prob, cost_est) :=
    estimate_lane sc_shipments lane_stats_csv models origin destination carrier service
                  distance_override weight stops in
  on_time_prob = ls_on_time_prob s /\ cost_est = ls_est_cost s.
Proof.
  intros Hpair Hhit. unfold estimate_lane. cbv zeta. rewrite Hhit.
  destruct (sc_on_time models), (sc_cost models);
    try (destruct Hpair; discriminate); split; reflexivity.
Qed.

(** Without a lane statistics file, the row found is the one computed from
    the shipments of the exact lane: their on-time share and mean cost. *)
Lemma lane_statistic_computed
    sc_shipments models origin destination carrier service
    distance_override weight stops :
  sc_on_time models = None \/ sc_cost models = None ->
  lane_group sc_shipments origin destination carrier service <> [] ->
  let '(_, on_time_prob, cost_est) :=
    estimate_lane sc_shipments None models origin destination carrier service
                  distance_override weight stops in
  let g := lane_group sc_shipments origin destination carrier service in
  on_time_prob = Num.mean (map (fun r => Num.of_bool (OnTimeDelivery r)) g)
  /\ cost_est = Num.mean (map ShipmentCost g).
Proof.
  intros Hpair Hne.
  pose proof (compute_lane_stats_query sc_shipments origin destination carrier service)
    as Hq.
  cbv zeta in Hq.
  destruct (lane_group sc_shipments origin destination carrier service) as [|r g] eqn:Eg;
    [congruence|].
  cbn [empty] in Hq.
  pose proof (lane_statistic_hit sc_shipments None models origin destination carrier
                service distance_override weight stops _ _ Hpair Hq) as H.
  destruct (estimate_lane _ _ _ _ _ _ _ _ _ _) as [[distance otp] ce].
  exact H.
Qed.

(** ** Carrier comparison *)

Lemma desc_na_last_total (a b : num) :
  desc_na_last a b = true \/ desc_na_last b a = true.
Proof.
  destruct a as [x|], b as [y|]; simpl; auto.
  rewrite !Qle_bool_iff. destruct (Qlt_le_dec x y) as [H|H]; [right; lra | left; lra].
Qed.

Lemma desc_na_last_trans (a b c : num) :
  desc_na_last a b = true -> desc_na_last b c = true -> desc_na_last a c = true.
Proof.
  destruct a as [x|], b as [y|], c as [z|]; simpl; try congruence.
  rewrite !Qle_bool_iff. intros; lra.
Qed.

Lemma StronglySorted_weaken {A : Type} (R R' : A -> A -> Prop) (l : list A) :
  (forall x y, R x y -> R' x y) -> StronglySorted R l -> StronglySorted R' l.
Proof.
  intros Himp. induction 1 as [|x t Ht IH Hx]; constructor.
  - exact IH.
  - eapply Forall_impl; [|exact Hx]. intros y. apply Himp.
Qed.

Lemma carriers_NoDup (sc_shipments : list Shipment) : NoDup (carriers sc_shipments).
Proof.
  unfold carriers.
  apply (Permutation_NoDup (Permutation_sym (sort_by_perm String.leb _))).
  apply unique_NoDup, String.eqb_eq.
Qed.

Lemma carriers_In (sc_shipments : list Shipment) (c : string) :
  In c (carriers sc_shipments) <-> exists r, In r sc_shipments /\ Carrier r = c.
Proof.
  unfold carriers. rewrite sort_by_In, (unique_In _ String.eqb_eq), in_map_iff.
  split; intros (r & H1 & H2); exists r; tauto.
Qed.

(** Without any carrier there is no table. *)
Lemma compare_carriers_no_carrier
    sc_shipments lane_stats_csv models origin destination service
    distance_input weight stops label :
  carriers sc_shipments = [] ->
  compare_carriers sc_shipments lane_stats_csv models origin destination service
                   distance_input weight stops label = None.
Proof.
  intro Hnil. unfold compare_carriers. cbv zeta. rewrite Hnil. reflexivity.
Qed.

(** C9, as stated, fails for N = 0: without any known carrier the frame
    built from the empty list of rows has no column to sort by, and there is
    no table, so no table of 0 rows either. *)
Lemma carrier_comparison_empty_counterexample :
  ~ (forall sc_shipments lane_stats_csv models origin destination service
            distance_input weight stops label,
       exists table,
         compare_carriers sc_shipments lane_stats_csv models origin destination
                          service distance_input weight stops label = Some table
         /\ List.length table = List.length (carriers sc_shipments)).
Proof.
  intro H.
  destruct (H [] None Sample.no_models "CHI" "NYC" "Standard" (Some 0) 35000 1%Z
              "OK TO WAIT") as (table & Htable & _).
  vm_compute in Htable. discriminate Htable.
Qed.

(** C9, amended.  The comparison runs the lane estimation once for each
    known carrier, with the other inputs unchanged: for N >= 1 known
    carriers there is a table, it has one row per known carrier, so N rows;
    the rows are in descending order of their on-time probability (a
    missing probability comes last); and each row carries the primary
    recommendation when its own on-time probability is at least 0.7, the
    alternate-carrier label otherwise. *)
Theorem carrier_comparison_table
    sc_shipments lane_stats_csv models origin destination service
    distance_input weight stops label :
  carriers sc_shipments <> [] ->
  exists table,
    compare_carriers sc_shipments lane_stats_csv models origin destination service
                     distance_input weight stops label = Some table
    /\ List.length table = List.length (carriers sc_shipments)
    /\ NoDup (carriers sc_shipments)
    /\ Permutation (map cr_Carrier table) (carriers sc_shipments)
    /\ StronglySorted
         (fun r1 r2 => Num.ge_na_last (on_time_probability r1) (on_time_probability r2))
         table
    /\ Forall
         (fun r =>
            let '(_, otp, ce) :=
              estimate_lane sc_shipments lane_stats_csv models origin destination
                            (cr_Carrier r) service distance_input weight stops in
            on_time_probability r = otp
            /\ estimated_cost r = ce
            /\ (Num.le (Fin 0.7) otp -> recommendation r = label)
            /\ (~ Num.le (Fin 0.7) otp ->
                recommendation r = "Consider alternate/expedite"))
         table.
Proof.
  intro Hcarriers. unfold compare_carriers. cbv zeta.
  set (row := fun c : string => _).
  assert (Hperm : Permutation (sort_by comp_leb (map row (carriers sc_shipments)))
                              (map row (carriers sc_shipments)))
    by apply sort_by_perm.
  assert (Hcar : forall c, cr_Carrier (row c) = c).
  { intro c. unfold row. now destruct (estimate_lane _ _ _ _ _ _ _ _ _ _) as [[? ?] ?]. }
  exists (sort_by comp_leb (map row (carriers sc_shipments))).
  split; [|split; [|split; [|split; [|split]]]].
  - destruct (carriers sc_shipments); [congruence | reflexivity].
  - rewrite sort_by_length. apply length_map.
  - apply carriers_NoDup.
  - eapply perm_trans; [apply Permutation_map, Hperm|].
    rewrite map_map. erewrite map_ext; [|exact Hcar]. rewrite map_id.
    apply Permutation_refl.
  - apply (StronglySorted_weaken (ordered_by comp_leb)).
    + intros r1 r2. apply NumFacts.ge_na_last_iff.
    + apply sort_by_sorted.
      * intros r1 r2. apply desc_na_last_total.
      * intros r1 r2 r3. apply desc_na_last_trans.
  - apply (Permutation_Forall (Permutation_sym Hperm)).
    apply Forall_forall. intros r Hr. apply in_map_iff in Hr.
    destruct Hr as (c & <- & _). rewrite Hcar. unfold row.
    destruct (estimate_lane _ _ _ _ _ _ _ _ _ _) as [[dist otp] ce].
    cbn [on_time_probability estimated_cost recommendation].
    split; [reflexivity|]. split; [reflexivity|].
    destruct (Num.geb otp (Fin 0.7)) eqn:E.
    + apply NumFacts.geb_le in E. split; [reflexivity | contradiction].
    + apply NumFacts.geb_false in E. split; [contradiction | reflexivity].
Qed.

Lemma carrier_comparison_table_witness :
  exists table,
    compare_carriers Sample.sc_shipments None Sample.no_models
                     "CHI" "NYC" "Standard" (Some 0) 35000 1 "OK TO WAIT" = Some table
    /\ map cr_Carrier table = ["Swift"; "Zephyr"; "Acme"]
    /\ List.length table = 3%nat.
Proof.
  destruct (carrier_comparison_table Sample.sc_shipments None Sample.no_models
              "CHI" "NYC" "Standard" (Some 0) 35000 1 "OK TO WAIT")
    as (table & Htable & Hlen & _).
  - vm_compute. discriminate.
  - exists table. split; [exact Htable|]. split; [|exact Hlen].
    vm_compute in Htable. injection Htable as <-. reflexivity.
Defined.

(** * Further properties of the code *)

(** ** Orders *)

Section OrderCmp.

Context {A : Type} (cmp : A -> A -> comparison).
Hypothesis Hcmp : order_cmp cmp.

Lemma cmp_refl (x : A) : cmp x x = Eq.
Proof.
  pose proof (cmp_opp cmp Hcmp x x) as H. destruct (cmp x x); simpl in H; congruence.
Qed.

Lemma not_Gt_total (x y : A) : not_Gt (cmp x y) = true \/ not_Gt (cmp y x) = true.
Proof.
  rewrite (cmp_opp cmp Hcmp x y). destruct (cmp x y); simpl; auto.
Qed.

Lemma not_Gt_trans (x y z : A) :
  not_Gt (cmp x y) = true -> not_Gt (cmp y z) = true -> not_Gt (cmp x z) = true.
Proof.
  destruct (cmp x y) eqn:Exy; [| |discriminate].
  - apply (cmp_eq cmp Hcmp) in Exy. subst y. auto.
  - destruct (cmp y z) eqn:Eyz; [| |discriminate].
    + apply (cmp_eq cmp Hcmp) in Eyz. subst z. now rewrite Exy.
    + now rewrite (cmp_lt_trans cmp Hcmp x y z Exy Eyz).
Qed.

End OrderCmp.

Lemma lex_cmp_order {A B : Type} (cA : A -> A -> comparison) (cB : B -> B -> comparison) :
  order_cmp cA -> order_cmp cB -> order_cmp (lex_cmp cA cB).
Proof.
  intros HA HB. constructor; unfold lex_cmp.
  - intros [a b] [a' b']. simpl.
    rewrite (cmp_opp cA HA a a'), (cmp_opp cB HB b b').
    destruct (cA a a'); reflexivity.
  - intros [a b] [a' b']. simpl.
    destruct (cA a a') eqn:Ea; simpl; try discriminate.
    intro Eb. apply (cmp_eq cA HA) in Ea. apply (cmp_eq cB HB) in Eb. congruence.
  - intros [a b] [a' b'] [a'' b'']. simpl.
    destruct (cA a a') eqn:E1; simpl; try discriminate.
    + apply (cmp_eq cA HA) in E1. subst a'.
      destruct (cA a a'') eqn:E2; simpl; try discriminate; auto.
      apply (cmp_lt_trans cB HB).
    + intros _. destruct (cA a' a'') eqn:E2; simpl; try discriminate.
      * apply (cmp_eq cA HA) in E2. subst a''. now rewrite E1.
      * intros _. now rewrite (cmp_lt_trans cA HA a a' a'' E1 E2).
Qed.

Lemma Z_compare_order : order_cmp Z.compare.
Proof.
  constructor.
  - intros x y. apply Z.compare_antisym.
  - intros x y. apply Z.compare_eq.
  - intros x y z. rewrite !Z.compare_lt_iff. lia.
Qed.

Lemma ascii_compare_lt_trans (a b c : Ascii.ascii) :
  Ascii.compare a b = Lt -> Ascii.compare b c = Lt -> Ascii.compare a c = Lt.
Proof.
  unfold Ascii.compare. rewrite !N.compare_lt_iff. apply N.lt_trans.
Qed.

Lemma string_compare_lt_trans (x y z : string) :
  String.compare x y = Lt -> String.compare y z = Lt -> String.compare x z = Lt.
Proof.
  revert y z. induction x as [|a x IH]; intros [|b y] [|c z]; simpl;
    try discriminate; auto.
  destruct (Ascii.compare a b) eqn:Eab; try discriminate.
  - apply Ascii.compare_eq_iff in Eab. subst b.
    destruct (Ascii.compare a c); try discriminate; auto. apply IH.
  - intros _. destruct (Ascii.compare b c) eqn:Ebc; try discriminate.
    + apply Ascii.compare_eq_iff in Ebc. subst c. now rewrite Eab.
    + intros _. now rewrite (ascii_compare_lt_trans a b c Eab Ebc).
Qed.

Lemma string_compare_order : order_cmp String.compare.
Proof.
  constructor.
  - intros x y. apply String.compare_antisym.
  - apply String.compare_eq_iff.
  - apply string_compare_lt_trans.
Qed.

Lemma lane_key_cmp_order : order_cmp lane_key_cmp.
Proof.
  unfold lane_key_cmp.
  repeat apply lex_cmp_order; apply string_compare_order.
Qed.

Lemma demand_key_cmp_order : order_cmp demand_key_cmp.
Proof.
  unfold demand_key_cmp.
  repeat apply lex_cmp_order; try apply string_compare_order. apply Z_compare_order.
Qed.

Lemma lex_assoc (c1 c2 c3 : comparison) : lex (lex c1 c2) c3 = lex c1 (lex c2 c3).
Proof. destruct c1; reflexivity. Qed.

Lemma lane_key_leb_cmp (a b : LaneKey) : lane_key_leb a b = not_Gt (lane_key_cmp a b).
Proof.
  destruct a as [[[o1 d1] c1] s1], b as [[[o2 d2] c2] s2].
  unfold lane_key_leb, lane_key_cmp, lex_cmp. simpl. now rewrite !lex_assoc.
Qed.

Lemma demand_key_leb_cmp (a b : DemandKey) :
  demand_key_leb a b = not_Gt (demand_key_cmp a b).
Proof.
  destruct a as [[h1 m1] t1], b as [[h2 m2] t2].
  unfold demand_key_leb, demand_key_cmp, lex_cmp. simpl. now rewrite !lex_assoc.
Qed.

Lemma string_leb_cmp (a b : string) : String.leb a b = not_Gt (String.compare a b).
Proof. unfold String.leb. now destruct (String.compare a b). Qed.

(** A list sorted with the order of a comparison function. *)
Lemma sort_by_cmp_sorted {A : Type} (leb : A -> A -> bool) (cmp : A -> A -> comparison)
    (l : list A) :
  order_cmp cmp -> (forall x y, leb x y = not_Gt (cmp x y)) ->
  StronglySorted (ordered_by leb) (sort_by leb l).
Proof.
  intros Hcmp Hleb. apply sort_by_sorted.
  - intros x y. rewrite !Hleb. now apply not_Gt_total.
  - intros x y z. rewrite !Hleb. now apply not_Gt_trans.
Qed.

(** ** Group tables *)

Section GroupFacts.

Context {K R : Type} (eqb leb : K -> K -> bool) (key : R -> K).
Hypothesis eqb_eq : forall x y, eqb x y = true <-> x = y.

Lemma group_keys_NoDup (keys : list K) : NoDup (group_keys eqb leb keys).
Proof.
  unfold group_keys.
  apply (Permutation_NoDup (Permutation_sym (sort_by_perm leb _))).
  now apply unique_NoDup.
Qed.

Lemma group_keys_In (k : K) (keys : list K) :
  In k (group_keys eqb leb keys) <-> In k keys.
Proof. unfold group_keys. now rewrite sort_by_In, unique_In. Qed.

(** A key that occurs has a non-empty group. *)
Lemma group_nonempty (k : K) (rows : list R) :
  In k (map key rows) -> filter (fun r => eqb (key r) k) rows <> [].
Proof.
  intros Hin Hnil. apply in_map_iff in Hin. destruct Hin as (r & Hk & Hr).
  assert (Hf : In r (filter (fun r => eqb (key r) k) rows))
    by (apply filter_In; split; [exact Hr | now apply eqb_eq]).
  rewrite Hnil in Hf. exact Hf.
Qed.

End GroupFacts.

Lemma Qsum_le_length (l : list Q) :
  Forall (fun x => x <= 1) l -> Num.Qsum l <= inject_Z (Z.of_nat (List.length l)).
Proof.
  induction 1 as [|x l Hx _ IH].
  - apply Qle_refl.
  - change (x + Num.Qsum l <= inject_Z (Z.of_nat (S (List.length l)))).
    rewrite Nat2Z.inj_succ. unfold Z.succ. rewrite inject_Z_plus.
    change (inject_Z 1) with 1. lra.
Qed.

(** The mean of a non-empty selection of shares is a share. *)
Lemma mean_unit_interval (l : list Q) :
  l <> [] -> Forall (fun x => 0 <= x) l -> Forall (fun x => x <= 1) l ->
  Num.le (Fin 0) (Num.mean l) /\ Num.le (Num.mean l) (Fin 1).
Proof.
  intros Hne H0 H1. split; [now apply NumFacts.mean_nonneg|].
  destruct l as [|x t]; [congruence|].
  unfold Num.mean, Num.le.
  apply Qle_shift_div_r.
  - change 0 with (inject_Z 0). rewrite <- Zlt_Qlt. simpl List.length. lia.
  - rewrite Qmult_1_l. now apply Qsum_le_length.
Qed.

Lemma mean_finite (l : list Q) : l <> [] -> is_finite (Num.mean l).
Proof. destruct l; [congruence | intros _; exact I]. Qed.

Lemma on_time_share_range (g : list Shipment) :
  g <> [] ->
  Num.le (Fin 0) (Num.mean (map (fun r => Num.of_bool (OnTimeDelivery r)) g))
  /\ Num.le (Num.mean (map (fun r => Num.of_bool (OnTimeDelivery r)) g)) (Fin 1).
Proof.
  intro Hne. apply mean_unit_interval.
  - destruct g; [congruence | discriminate].
  - apply Forall_map, Forall_forall. intros r _.
    destruct (OnTimeDelivery r); simpl; lra.
  - apply Forall_map, Forall_forall. intros r _.
    destruct (OnTimeDelivery r); simpl; lra.
Qed.

(** A row of the computed lane statistics comes from the group of its key. *)
Lemma lane_stats_row (sc_shipments : list Shipment) (s : LaneStat) :
  In s (compute_lane_stats sc_shipments) ->
  let g := lane_group sc_shipments (ls_Origin s) (ls_Destination s)
                      (ls_Carrier s) (ls_ServiceLevel s) in
  g <> []
  /\ ls_n s = List.length g
  /\ ls_on_time_prob s = Num.mean (map (fun r => Num.of_bool (OnTimeDelivery r)) g)
  /\ ls_est_cost s = Num.mean (map ShipmentCost g)
  /\ ls_avg_dist s = Num.mean (map Distance g).
Proof.
  unfold compute_lane_stats. intro Hin. apply in_map_iff in Hin.
  destruct Hin as ([[[o d] c] sv] & <- & Hk). cbn.
  apply (proj1 (group_keys_In lane_key_eqb lane_key_leb lane_key_eqb_eq _ _)) in Hk.
  split; [|repeat split].
  exact (group_nonempty lane_key_eqb lane_key lane_key_eqb_eq _ _ Hk).
Qed.

Lemma lane_stats_keys (sc_shipments : list Shipment) :
  map ls_key (compute_lane_stats sc_shipments)
  = group_keys lane_key_eqb lane_key_leb (map lane_key sc_shipments).
Proof.
  unfold compute_lane_stats. rewrite map_map.
  erewrite map_ext; [apply map_id|]. intros [[[o d] c] sv]. reflexivity.
Qed.

Lemma baseline_keys (hc_df : list DemandRecord) :
  map bl_key (baseline_demand hc_df)
  = group_keys demand_key_eqb demand_key_leb (map demand_key hc_df).
Proof.
  unfold baseline_demand. rewrite map_map.
  erewrite map_ext; [apply map_id|]. intros [[h m] t]. reflexivity.
Qed.

(** X1.  Every row of the computed lane statistics stands for at least one
    shipment: its [n] is the number of shipments of its (origin,
    destination, carrier, service), which is at least 1, and its three
    averages are numbers, never [NaN]. *)
Theorem lane_stats_sample_counts (sc_shipments : list Shipment) (s : LaneStat) :
  In s (compute_lane_stats sc_shipments) ->
  (1 <= ls_n s)%nat
  /\ ls_n s = List.length (lane_group sc_shipments (ls_Origin s) (ls_Destination s)
                                      (ls_Carrier s) (ls_ServiceLevel s))
  /\ is_finite (ls_on_time_prob s) /\ is_finite (ls_est_cost s)
  /\ is_finite (ls_avg_dist s).
Proof.
  intro Hin. destruct (lane_stats_row sc_shipments s Hin) as (Hne & Hn & Ho & Hc & Hd).
  rewrite Hn, Ho, Hc, Hd.
  destruct (lane_group sc_shipments _ _ _ _) as [|r g]; [congruence|].
  simpl. repeat split. lia.
Qed.

Lemma lane_stats_sample_counts_witness :
  ls_n {| ls_Origin := "CHI"; ls_Destination := "NYC"; ls_Carrier := "Swift";
          ls_ServiceLevel := "Standard"; ls_on_time_prob := Fin (2 # 2);
          ls_est_cost := Fin (1040 # 2); ls_avg_dist := Fin (1600 # 2);
          ls_n := 2 |} = 2%nat.
Proof.
  apply (lane_stats_sample_counts Sample.sc_shipments).
  vm_compute. do 2 right. left. reflexivity.
Defined.

(** X2.  The computed lane statistics hold exactly one row per lane key
    that occurs among the shipments, and the rows are in ascending order of
    (origin, destination, carrier, service). *)
Theorem lane_stats_keys_unique_sorted (sc_shipments : list Shipment) :
  NoDup (map ls_key (compute_lane_stats sc_shipments))
  /\ StronglySorted (ordered_by lane_key_leb) (map ls_key (compute_lane_stats sc_shipments))
  /\ (forall k, In k (map ls_key (compute_lane_stats sc_shipments))
                <-> exists r, In r sc_shipments /\ lane_key r = k).
Proof.
  rewrite lane_stats_keys. split; [|split].
  - apply group_keys_NoDup, lane_key_eqb_eq.
  - apply (sort_by_cmp_sorted _ lane_key_cmp).
    + apply lane_key_cmp_order.
    + apply lane_key_leb_cmp.
  - intro k. rewrite (group_keys_In _ _ lane_key_eqb_eq), in_map_iff.
    split; intros (r & H1 & H2); exists r; tauto.
Qed.

(** X4.  The on-time probability of every row of the computed lane
    statistics lies between 0 and 1. *)
Theorem lane_stats_on_time_is_share (sc_shipments : list Shipment) (s : LaneStat) :
  In s (compute_lane_stats sc_shipments) ->
  Num.le (Fin 0) (ls_on_time_prob s) /\ Num.le (ls_on_time_prob s) (Fin 1).
Proof.
  intro Hin. destruct (lane_stats_row sc_shipments s Hin) as (Hne & _ & Ho & _).
  rewrite Ho. now apply on_time_share_range.
Qed.

Lemma lane_stats_on_time_is_share_witness :
  Num.le (Fin 0) (Fin (2 # 2)) /\ Num.le (Fin (2 # 2)) (Fin 1).
Proof.
  apply (lane_stats_on_time_is_share Sample.sc_shipments
           {| ls_Origin := "DAL"; ls_Destination := "SEA"; ls_Carrier := "Acme";
              ls_ServiceLevel := "Express"; ls_on_time_prob := Fin (2 # 2);
              ls_est_cost := Fin (3200 # 2); ls_avg_dist := Fin (4300 # 2);
              ls_n := 2 |}).
  vm_compute. do 4 right. left. reflexivity.
Defined.

(** X5.  The demand baseline holds exactly one entry per (hospital,
    medicine, month) that occurs among the demand records, in ascending key
    order, and every entry is the mean demand of a non-empty group, so a
    number and never [NaN]. *)
Theorem baseline_keys_unique_sorted (hc_df : list DemandRecord) :
  NoDup (map bl_key (baseline_demand hc_df))
  /\ StronglySorted (ordered_by demand_key_leb) (map bl_key (baseline_demand hc_df))
  /\ (forall k, In k (map bl_key (baseline_demand hc_df))
                <-> exists r, In r hc_df /\ demand_key r = k)
  /\ Forall (fun b =>
               demand_group hc_df (bl_Hospital b) (bl_Medicine b) (bl_Month b) <> []
               /\ pred_monthly_demand b
                  = Num.mean (map Demand (demand_group hc_df (bl_Hospital b)
                                                       (bl_Medicine b) (bl_Month b)))
               /\ is_finite (pred_monthly_demand b))
            (baseline_demand hc_df).
Proof.
  rewrite baseline_keys. split; [|split; [|split]].
  - apply group_keys_NoDup, demand_key_eqb_eq.
  - apply (sort_by_cmp_sorted _ demand_key_cmp).
    + apply demand_key_cmp_order.
    + apply demand_key_leb_cmp.
  - intro k. rewrite (group_keys_In _ _ demand_key_eqb_eq), in_map_iff.
    split; intros (r & H1 & H2); exists r; tauto.
  - apply Forall_forall. intros b Hb.
    destruct (proj1 (baseline_entry hc_df (bl_Hospital b) (bl_Medicine b) (bl_Month b) b))
      as [Hne Hrow]; [tauto|].
    split; [exact Hne|]. split.
    + rewrite Hrow at 1. reflexivity.
    + rewrite Hrow. cbn [pred_monthly_demand]. apply mean_finite.
      destruct (demand_group hc_df _ _ _); [congruence | discriminate].
Qed.

(** ** Demand and shortage without models *)

Lemma filter_none {A : Type} (p : A -> bool) (l : list A) :
  (forall x, In x l -> p x = false) -> filter p l = [].
Proof.
  induction l as [|x l IH]; intro H; [reflexivity|]. simpl.
  rewrite (H x (or_introl eq_refl)). apply IH. intros y Hy. apply H. now right.
Qed.

(** The first row that passes a mask is the first row of the selection. *)
Lemma filter_first_match {A : Type} (p : A -> bool) (pre post : list A) (x : A) :
  (forall y, In y pre -> p y = false) -> p x = true ->
  filter p (pre ++ x :: post)%list = x :: filter p post.
Proof.
  intros Hpre Hx. rewrite filter_app, (filter_none p pre Hpre). simpl. now rewrite Hx.
Qed.

Lemma predict_without_models
    hc_df models hospital medicine month current_inventory lead_time_days :
  hc_demand models = None -> hc_risk models = None ->
  predict_demand_and_risk hc_df models hospital medicine month
                          current_inventory lead_time_days
  = let demand_pred := stats_demand hc_df hospital medicine month in
    let buffer_need :=
      Num.mul (Num.div demand_pred (Fin 30.0)) (Num.of_int lead_time_days) in
    (demand_pred,
     if Num.ltb (Num.of_int current_inventory) buffer_need then Fin 0.8 else Fin 0.2,
     buffer_need,
     Num.sub (Num.of_int current_inventory) buffer_need).
Proof.
  intros Hd Hr. unfold predict_demand_and_risk, stats_demand. cbv zeta.
  rewrite Hd, Hr. reflexivity.
Qed.

(** The decision of the heuristic is its own inventory test. *)
Lemma heuristic_order (current_inventory : Z) (buffer_need : num) :
  order_now (if Num.ltb (Num.of_int current_inventory) buffer_need
             then Fin 0.8 else Fin 0.2)
            (Num.sub (Num.of_int current_inventory) buffer_need)
  = Num.ltb (Num.of_int current_inventory) buffer_need.
Proof.
  unfold order_now. rewrite <- NumFacts.ltb_sub.
  destruct (Num.ltb (Num.of_int current_inventory) buffer_need); reflexivity.
Qed.

(** From non-negative records the statistics give a non-negative demand,
    or [NaN] for a medicine without records. *)
Lemma stats_demand_nonneg (hc_df : list DemandRecord) (hospital medicine : string)
    (month : Z) :
  Forall (fun r => 0 <= Demand r) hc_df ->
  stats_demand hc_df hospital medicine month = NaN
  \/ exists d, stats_demand hc_df hospital medicine month = Fin d /\ 0 <= d.
Proof.
  intro Hpos.
  assert (Hmean : forall rows : list DemandRecord,
            (forall r, In r rows -> In r hc_df) ->
            Num.mean (map Demand rows) = NaN
            \/ exists d, Num.mean (map Demand rows) = Fin d /\ 0 <= d).
  { intros rows Hsub. destruct rows as [|r0 rows0] eqn:E; [now left|]. right.
    assert (Hle : Num.le (Fin 0) (Num.mean (map Demand (r0 :: rows0)))).
    { apply mean_Demand_nonneg; [discriminate|].
      apply Forall_forall. intros r Hr.
      exact (proj1 (Forall_forall _ _) Hpos r (Hsub r Hr)). }
    destruct (Num.mean (map Demand (r0 :: rows0))) as [d|]; [|contradiction].
    exists d. now split. }
  unfold stats_demand, demand_baseline. cbv zeta. rewrite baseline_demand_query.
  destruct (empty (demand_group hc_df hospital medicine month));
    cbn [negb iloc0 hd map pred_monthly_demand].
  - apply Hmean. intros r Hr. apply filter_In in Hr. tauto.
  - apply Hmean. intros r Hr. apply filter_In in Hr. tauto.
Qed.

(** The region looked up for a hospital is that of its first record in the
    demand table; a hospital without any record gets "MW". *)
Lemma region_of_first_record (hc_df : list DemandRecord) (hospital : string) :
  ((forall r, In r hc_df -> Hospital r <> hospital) -> region_of hc_df hospital = "MW")
  /\ (forall pre r post,
        hc_df = (pre ++ r :: post)%list ->
        (forall r', In r' pre -> Hospital r' <> hospital) ->
        Hospital r = hospital ->
        region_of hc_df hospital = Region r).
Proof.
  pose proof (region_of_spec hc_df hospital) as H. split.
  - intro Hnone. rewrite filter_none in H; [exact H|].
    intros r Hr. apply String.eqb_neq. now apply Hnone.
  - intros pre r post -> Hpre Hr. rewrite filter_first_match in H; [exact H| |].
    + intros r' Hr'. apply String.eqb_neq. now apply Hpre.
    + now apply String.eqb_eq.
Qed.

(** X6.  A registered demand model and a registered shortage classifier
    are both called on a feature row whose Region is the region of the
    hospital's first record in the demand table (later records of the
    hospital are not looked at), or "MW" for a hospital without any record;
    the other features are the inputs of the query. *)
Theorem models_receive_first_region
    hc_df models hospital medicine month current_inventory lead_time_days
    (region : string) :
  ((forall r, In r hc_df -> Hospital r <> hospital) /\ region = "MW")
  \/ (exists pre r post,
        hc_df = (pre ++ r :: post)%list
        /\ (forall r', In r' pre -> Hospital r' <> hospital)
        /\ Hospital r = hospital /\ region = Region r) ->
  let x := {| x_Hospital := hospital; x_Region := region;
              x_Medicine := medicine; x_Month := month;
              x_Inventory := current_inventory;
              x_LeadTimeDays := lead_time_days |} in
  let '(demand_pred, shortage_prob, _, _) :=
    predict_demand_and_risk hc_df models hospital medicine month
                            current_inventory lead_time_days in
  (forall reg, hc_demand models = Some reg -> demand_pred = reg x)
  /\ (forall clf, hc_risk models = Some clf -> shortage_prob = clf x).
Proof.
  intro Hregion.
  assert (Hr : region_of hc_df hospital = region).
  { destruct (region_of_first_record hc_df hospital) as [Hnone Hfirst].
    destruct Hregion as [[Hno ->]|(pre & r & post & Hdf & Hpre & Hh & ->)].
    - now apply Hnone.
    - now apply (Hfirst pre r post). }
  unfold predict_demand_and_risk. cbv zeta. rewrite Hr. split.
  - intros reg ->. reflexivity.
  - intros clf ->. reflexivity.
Qed.

Lemma models_receive_first_region_witness :
  let '(demand_pred, shortage_prob, _, _) :=
    predict_demand_and_risk SampleRegion.hc_df SampleRegion.regional_models
                            "GenHosp" "InsulinX" 6 150 7 in
  demand_pred = Fin 500 /\ shortage_prob = Fin 0.9.
Proof.
  pose proof (models_receive_first_region SampleRegion.hc_df SampleRegion.regional_models
                "GenHosp" "InsulinX" 6 150 7 "NE") as H.
  destruct (predict_demand_and_risk _ _ _ _ _ _ _) as [[[dp sp] bn] gap].
  cbv zeta in H. destruct H as [Hreg Hclf].
  - right.
    exists [Sample.demand_rec "StMary" "MW" "Amoxil" 6 90],
           (Sample.demand_rec "GenHosp" "NE" "InsulinX" 6 280),
           [Sample.demand_rec "GenHosp" "SO" "InsulinX" 7 600].
    split; [reflexivity|]. split; [|split; reflexivity].
    intros r' [<-|[]]. discriminate.
  - rewrite (Hreg _ eq_refl), (Hclf _ eq_refl). split; reflexivity.
Defined.

(** X7.  Without models, a medicine that has no demand record gives no
    number at all: demand, buffer and gap are [NaN], the shortage
    probability is the low constant 0.2 and the decision is to wait. *)
Theorem unknown_medicine_waits
    hc_df models hospital medicine month current_inventory lead_time_days :
  hc_demand models = None -> hc_risk models = None ->
  (forall r, In r hc_df -> Medicine r <> medicine) ->
  predict_demand_and_risk hc_df models hospital medicine month
                          current_inventory lead_time_days
  = (NaN, Fin 0.2, NaN, NaN)
  /\ order_now (Fin 0.2) NaN = false.
Proof.
  intros Hd Hr Hnone. split; [|reflexivity].
  rewrite (predict_without_models _ _ _ _ _ _ _ Hd Hr).
  assert (Hdp : stats_demand hc_df hospital medicine month = NaN).
  { unfold stats_demand, demand_baseline. cbv zeta. rewrite baseline_demand_query.
    unfold demand_group. rewrite !filter_none; [reflexivity| |].
    - intros r Hin. apply String.eqb_neq. now apply Hnone.
    - intros r Hin.
      assert (String.eqb (Medicine r) medicine = false) as ->
        by (apply String.eqb_neq; now apply Hnone).
      now rewrite andb_false_r. }
  cbv zeta. rewrite Hdp. reflexivity.
Qed.

Lemma unknown_medicine_waits_witness :
  predict_demand_and_risk Sample.hc_df Sample.no_models "GenHosp" "Nope" 3 50 7
  = (NaN, Fin 0.2, NaN, NaN).
Proof.
  apply (unknown_medicine_waits Sample.hc_df Sample.no_models "GenHosp" "Nope" 3 50 7);
    try reflexivity.
  intros r Hr. vm_compute in Hr.
  repeat (destruct Hr as [<-|Hr]; [discriminate|]). contradiction.
Defined.

(** X8.  Without models the decision is monotone in the inventory: if the
    advice is to order at some inventory, it is to order at every smaller
    inventory, the other inputs unchanged. *)
Theorem order_monotone_in_inventory
    hc_df models hospital medicine month lead_time_days (inventory inventory' : Z) :
  hc_demand models = None -> hc_risk models = None ->
  (inventory <= inventory')%Z ->
  let '(_, shortage_prob, _, inventory_gap) :=
    predict_demand_and_risk hc_df models hospital medicine month
                            inventory lead_time_days in
  let '(_, shortage_prob', _, inventory_gap') :=
    predict_demand_and_risk hc_df models hospital medicine month
                            inventory' lead_time_days in
  order_now shortage_prob' inventory_gap' = true ->
  order_now shortage_prob inventory_gap = true.
Proof.
  intros Hd Hr Hle.
  rewrite !(predict_without_models _ _ _ _ _ _ _ Hd Hr). cbv beta iota zeta.
  rewrite !heuristic_order, !NumFacts.ltb_lt.
  destruct (Num.mul _ _) as [b|]; simpl; [|tauto].
  rewrite Zle_Qle in Hle. intro H. lra.
Qed.

Lemma order_monotone_in_inventory_witness :
  order_now (Fin 0.8) (Fin (-18000 # 600)) = true.
Proof.
  pose proof (order_monotone_in_inventory Sample.hc_df Sample.no_models
                "GenHosp" "InsulinX" 6 7 40 50 eq_refl eq_refl) as H.
  destruct (predict_demand_and_risk _ _ _ _ _ 40 _) as [[[dp sp] bn] gap] eqn:E.
  destruct (predict_demand_and_risk _ _ _ _ _ 50 _) as [[[dp' sp'] bn'] gap'] eqn:E'.
  vm_compute in E, E'. injection E as <- <- <- <-. injection E' as <- <- <- <-.
  apply H; [lia | vm_compute; reflexivity].
Defined.

(** X9.  Without models and with non-negative recorded demands, the
    decision is monotone in the lead time: if the advice is to order for
    some lead time, it is to order for every longer lead time. *)
Theorem order_monotone_in_lead_time
    hc_df models hospital medicine month current_inventory (lead lead' : Z) :
  hc_demand models = None -> hc_risk models = None ->
  Forall (fun r => 0 <= Demand r) hc_df ->
  (lead <= lead')%Z ->
  let '(_, shortage_prob, _, inventory_gap) :=
    predict_demand_and_risk hc_df models hospital medicine month
                            current_inventory lead in
  let '(_, shortage_prob', _, inventory_gap') :=
    predict_demand_and_risk hc_df models hospital medicine month
                            current_inventory lead' in
  order_now shortage_prob inventory_gap = true ->
  order_now shortage_prob' inventory_gap' = true.
Proof.
  intros Hd Hr Hpos Hle.
  rewrite !(predict_without_models _ _ _ _ _ _ _ Hd Hr). cbv beta iota zeta.
  rewrite !heuristic_order, !NumFacts.ltb_lt.
  destruct (stats_demand_nonneg hc_df hospital medicine month Hpos)
    as [->|(d & -> & Hd0)]; simpl; [tauto|].
  rewrite Zle_Qle in Hle. intro H.
  assert (Hstep : d / 30.0 * inject_Z lead <= d / 30.0 * inject_Z lead').
  { rewrite (Qmult_comm _ (inject_Z lead)), (Qmult_comm _ (inject_Z lead')).
    apply Qmult_le_compat_r; [exact Hle|].
    apply Qle_shift_div_l; [reflexivity | lra]. }
  lra.
Qed.

Lemma order_monotone_in_lead_time_witness :
  order_now (Fin 0.8) (Fin (-12000 # 600)) = true.
Proof.
  pose proof (order_monotone_in_lead_time Sample.hc_df Sample.no_models
                "GenHosp" "InsulinX" 6 50 6 7 eq_refl eq_refl) as H.
  destruct (predict_demand_and_risk _ _ _ _ _ _ 6) as [[[dp sp] bn] gap] eqn:E.
  destruct (predict_demand_and_risk _ _ _ _ _ _ 7) as [[[dp' sp'] bn'] gap'] eqn:E'.
  vm_compute in E, E'. injection E as <- <- <- <-. injection E' as <- <- <- <-.
  apply H; [|lia|vm_compute; reflexivity].
  repeat constructor; vm_compute; discriminate.
Defined.

(** ** Lane estimation on the statistics *)

(** The statistics branch only looks at the four names of the lane. *)
Lemma statistics_branch
    sc_shipments lane_stats_csv models origin destination carrier service
    distance_override weight stops :
  sc_on_time models = None \/ sc_cost models = None ->
  let '(_, on_time_prob, cost_est) :=
    estimate_lane sc_shipments lane_stats_csv models origin destination carrier service
                  distance_override weight stops in
  let row := filter (fun s => String.eqb (ls_Origin s) origin
                              && String.eqb (ls_Destination s) destination
                              && String.eqb (ls_Carrier s) carrier
                              && String.eqb (ls_ServiceLevel s) service)
                    (lane_stats sc_shipments lane_stats_csv) in
  let lane_only := lane_records sc_shipments origin destination in
  (on_time_prob, cost_est)
  = if empty row
    then (if negb (empty lane_only)
          then Num.mean (map (fun r => Num.of_bool (OnTimeDelivery r)) lane_only)
          else Fin 0.65,
          if negb (empty lane_only)
          then Num.mean (map ShipmentCost lane_only)
          else Fin 300.0)
    else (iloc0 NaN (map ls_on_time_prob row), iloc0 NaN (map ls_est_cost row)).
Proof.
  intro Hpair. unfold estimate_lane. cbv zeta.
  fold (lane_records sc_shipments origin destination).
  destruct (sc_on_time models), (sc_cost models);
    try (destruct Hpair; discriminate);
    destruct (empty (filter _ (lane_stats sc_shipments lane_stats_csv))); reflexivity.
Qed.

(** X10.  Unless both lane models are registered, the weight, the number
    of stops and the distance override have no effect on the on-time
    probability and on the cost. *)
Theorem statistics_ignore_shipment_inputs
    sc_shipments lane_stats_csv models origin destination carrier service
    distance_override weight stops distance_override' weight' stops' :
  sc_on_time models = None \/ sc_cost models = None ->
  let '(_, on_time_prob, cost_est) :=
    estimate_lane sc_shipments lane_stats_csv models origin destination carrier service
                  distance_override weight stops in
  let '(_, on_time_prob', cost_est') :=
    estimate_lane sc_shipments lane_stats_csv models origin destination carrier service
                  distance_override' weight' stops' in
  on_time_prob = on_time_prob' /\ cost_est = cost_est'.
Proof.
  intro Hpair.
  pose proof (statistics_branch sc_shipments lane_stats_csv models origin destination
                carrier service distance_override weight stops Hpair) as H.
  pose proof (statistics_branch sc_shipments lane_stats_csv models origin destination
                carrier service distance_override' weight' stops' Hpair) as H'.
  destruct (estimate_lane _ _ _ _ _ _ _ distance_override _ _) as [[d1 o1] c1].
  destruct (estimate_lane _ _ _ _ _ _ _ distance_override' _ _) as [[d2 o2] c2].
  cbv zeta in H, H'. rewrite <- H' in H. injection H as -> ->. now split.
Qed.

Lemma statistics_ignore_shipment_inputs_witness :
  snd (estimate_lane Sample.sc_shipments None Sample.on_time_only
         "CHI" "NYC" "Swift" "Standard" (Some 0) 35000 1)
  = snd (estimate_lane Sample.sc_shipments None Sample.on_time_only
           "CHI" "NYC" "Swift" "Standard" (Some 1200) 50 3).
Proof.
  pose proof (statistics_ignore_shipment_inputs Sample.sc_shipments None
                Sample.on_time_only "CHI" "NYC" "Swift" "Standard"
                (Some 0) 35000 1 (Some 1200) 50 3 (or_intror eq_refl)) as H.
  destruct (estimate_lane _ _ _ _ _ _ _ (Some 0) _ _) as [[d1 o1] c1].
  destruct (estimate_lane _ _ _ _ _ _ _ (Some 1200) _ _) as [[d2 o2] c2].
  simpl. apply H.
Defined.

(** X11.  The distance depends on the origin, the destination and the
    override only: the carrier, the service, the weight, the stops, the
    models and the lane statistics never change it, so every row of a
    carrier comparison is estimated over the same distance. *)
Theorem distance_shared_by_carriers
    sc_shipments origin destination distance_override
    lane_stats_csv models carrier service weight stops
    lane_stats_csv' models' carrier' service' weight' stops' :
  fst (fst (estimate_lane sc_shipments lane_stats_csv models origin destination
                          carrier service distance_override weight stops))
  = fst (fst (estimate_lane sc_shipments lane_stats_csv' models' origin destination
                            carrier' service' distance_override weight' stops')).
Proof.
  pose proof (returned_distance sc_shipments lane_stats_csv models origin destination
                carrier service distance_override weight stops) as H.
  pose proof (returned_distance sc_shipments lane_stats_csv' models' origin destination
                carrier' service' distance_override weight' stops') as H'.
  destruct (estimate_lane _ lane_stats_csv _ _ _ _ _ _ _ _) as [[d1 o1] c1].
  destruct (estimate_lane _ lane_stats_csv' _ _ _ _ _ _ _ _) as [[d2 o2] c2].
  cbv zeta in H, H'. simpl. congruence.
Qed.

(** X12.  With the lane statistics computed from the shipments and without
    the pair of lane models, the on-time probability is a number between 0
    and 1 for every query, known lane or not; the cost is non-negative when
    the recorded costs are. *)
Theorem statistics_on_time_is_share
    sc_shipments models origin destination carrier service
    distance_override weight stops :
  sc_on_time models = None \/ sc_cost models = None ->
  let '(_, on_time_prob, cost_est) :=
    estimate_lane sc_shipments None models origin destination carrier service
                  distance_override weight stops in
  Num.le (Fin 0) on_time_prob /\ Num.le on_time_prob (Fin 1)
  /\ (Forall (fun r => 0 <= ShipmentCost r) sc_shipments -> Num.le (Fin 0) cost_est).
Proof.
  intro Hpair.
  pose proof (statistics_branch sc_shipments None models origin destination
                carrier service distance_override weight stops Hpair) as H.
  destruct (estimate_lane _ _ _ _ _ _ _ _ _ _) as [[dist otp] ce].
  cbv zeta in H. unfold lane_stats in H. rewrite compute_lane_stats_query in H.
  cbv zeta in H.
  assert (Hcost : forall g : list Shipment,
            g <> [] -> (forall r, In r g -> In r sc_shipments) ->
            Forall (fun r => 0 <= ShipmentCost r) sc_shipments ->
            Num.le (Fin 0) (Num.mean (map ShipmentCost g))).
  { intros g Hne Hsub Hpos. apply NumFacts.mean_nonneg.
    - destruct g; [congruence | discriminate].
    - apply Forall_map, Forall_forall. intros r Hr.
      exact (proj1 (Forall_forall _ _) Hpos r (Hsub r Hr)). }
  destruct (lane_group sc_shipments origin destination carrier service) as [|r g] eqn:Eg;
    cbn [empty map iloc0 hd ls_on_time_prob ls_est_cost] in H.
  - destruct (lane_records sc_shipments origin destination) as [|r l] eqn:El;
      cbn [empty negb] in H; injection H as -> ->.
    + split; [simpl; lra|]. split; [simpl; lra|]. intros _. simpl. lra.
    + destruct (on_time_share_range (r :: l)) as [H0 H1]; [discriminate|].
      split; [exact H0|]. split; [exact H1|]. intro Hpos.
      apply (Hcost (r :: l)); [discriminate| |exact Hpos].
      intros x Hx. rewrite <- El in Hx. apply filter_In in Hx. tauto.
  - injection H as -> ->.
    destruct (on_time_share_range (r :: g)) as [H0 H1]; [discriminate|].
    split; [exact H0|]. split; [exact H1|]. intro Hpos.
    apply (Hcost (r :: g)); [discriminate| |exact Hpos].
    intros x Hx. rewrite <- Eg in Hx. apply filter_In in Hx. tauto.
Qed.

Lemma statistics_on_time_is_share_witness :
  Num.le (Fin 0) (Fin (2 # 4)) /\ Num.le (Fin (2 # 4)) (Fin 1).
Proof.
  pose proof (statistics_on_time_is_share Sample.sc_shipments Sample.no_models
                "DAL" "SEA" "Swift" "Express" (Some 0) 35000 1 (or_introl eq_refl)) as H.
  destruct (estimate_lane _ _ _ _ _ _ _ _ _ _) as [[dist otp] ce] eqn:E.
  vm_compute in E. injection E as <- <- <-.
  destruct H as (H0 & H1 & _). now split.
Defined.

(** X13.  With the lane statistics computed from the shipments and without
    the pair of lane models: a lane with shipments of the very carrier and
    service is estimated by the on-time share and the mean cost of those
    shipments; otherwise by those of all shipments of the origin and
    destination; otherwise by the constants 0.65 and 300. *)
Theorem computed_statistics_exact_then_lane
    sc_shipments models origin destination carrier service
    distance_override weight stops :
  sc_on_time models = None \/ sc_cost models = None ->
  let '(_, on_time_prob, cost_est) :=
    estimate_lane sc_shipments None models origin destination carrier service
                  distance_override weight stops in
  let exact := lane_group sc_shipments origin destination carrier service in
  let lane_only := lane_records sc_shipments origin destination in
  (exact <> [] ->
     on_time_prob = Num.mean (map (fun r => Num.of_bool (OnTimeDelivery r)) exact)
     /\ cost_est = Num.mean (map ShipmentCost exact))
  /\ (exact = [] -> lane_only <> [] ->
      on_time_prob = Num.mean (map (fun r => Num.of_bool (OnTimeDelivery r)) lane_only)
      /\ cost_est = Num.mean (map ShipmentCost lane_only))
  /\ (lane_only = [] -> on_time_prob = Fin 0.65 /\ cost_est = Fin 300.0).
Proof.
  intro Hpair.
  pose proof (statistics_branch sc_shipments None models origin destination
                carrier service distance_override weight stops Hpair) as H.
  destruct (estimate_lane _ _ _ _ _ _ _ _ _ _) as [[dist otp] ce].
  cbv zeta in *. unfold lane_stats in H. rewrite compute_lane_stats_query in H.
  cbv zeta in H.
  assert (Hsub : lane_records sc_shipments origin destination = [] ->
                 lane_group sc_shipments origin destination carrier service = []).
  { intro Hnil. apply filter_none. intros r Hr.
    destruct (String.eqb (Origin r) origin && String.eqb (Destination r) destination)
      eqn:E; [|reflexivity].
    exfalso.
    assert (Hin : In r (lane_records sc_shipments origin destination))
      by (apply filter_In; now split).
    rewrite Hnil in Hin. exact Hin. }
  destruct (lane_group sc_shipments origin destination carrier service) as [|r g] eqn:Eg;
    cbn [empty map iloc0 hd ls_on_time_prob ls_est_cost] in H.
  - destruct (lane_records sc_shipments origin destination) as [|r l];
      cbn [empty negb] in H; injection H as -> ->.
    + split; [congruence|]. split; [congruence | now split].
    + split; [congruence|]. split; [now split | discriminate].
  - injection H as -> ->.
    split; [now split|]. split; [discriminate|].
    intro Hnil. specialize (Hsub Hnil). discriminate.
Qed.

Lemma computed_statistics_exact_then_lane_witness :
  snd (fst (estimate_lane Sample.sc_shipments None Sample.no_models
              "CHI" "NYC" "Swift" "Standard" (Some 0) 35000 1)) = Fin (2 # 2)
  /\ snd (fst (estimate_lane Sample.sc_shipments None Sample.no_models
              "DAL" "SEA" "Swift" "Express" (Some 0) 35000 1)) = Fin (2 # 4)
  /\ snd (fst (estimate_lane Sample.sc_shipments None Sample.no_models
              "DAL" "NYC" "Swift" "Express" (Some 0) 35000 1)) = Fin 0.65.
Proof.
  pose proof (computed_statistics_exact_then_lane Sample.sc_shipments Sample.no_models
                "CHI" "NYC" "Swift" "Standard" (Some 0) 35000 1 (or_introl eq_refl)) as H1.
  pose proof (computed_statistics_exact_then_lane Sample.sc_shipments Sample.no_models
                "DAL" "SEA" "Swift" "Express" (Some 0) 35000 1 (or_introl eq_refl)) as H2.
  pose proof (computed_statistics_exact_then_lane Sample.sc_shipments Sample.no_models
                "DAL" "NYC" "Swift" "Express" (Some 0) 35000 1 (or_introl eq_refl)) as H3.
  destruct (estimate_lane _ _ _ "CHI" "NYC" _ _ _ _ _) as [[d1 o1] c1].
  destruct (estimate_lane _ _ _ "DAL" "SEA" _ _ _ _ _) as [[d2 o2] c2].
  destruct (estimate_lane _ _ _ "DAL" "NYC" _ _ _ _ _) as [[d3 o3] c3].
  cbv zeta in H1, H2, H3. simpl.
  destruct H1 as [H1 _]. destruct H1 as [-> _]; [vm_compute; discriminate|].
  destruct H2 as (_ & H2 & _).
  destruct H2 as [-> _]; [reflexivity | vm_compute; discriminate|].
  destruct H3 as (_ & _ & H3). destruct (H3 eq_refl) as [-> _].
  split; [vm_compute; reflexivity|]. split; [vm_compute; reflexivity | reflexivity].
Defined.

(** X14.  With a lane statistics file and without the pair of lane models,
    the first row of the file that carries the queried (origin, destination,
    carrier, service) decides the estimate; later rows with the same key are
    not looked at. *)
Theorem lane_file_first_row_wins
    sc_shipments models origin destination carrier service
    distance_override weight stops (pre post : list LaneStat) (s : LaneStat) :
  sc_on_time models = None \/ sc_cost models = None ->
  (forall s', In s' pre -> ls_key s' <> (origin, destination, carrier, service)) ->
  ls_key s = (origin, destination, carrier, service) ->
  let '(_, on_time_prob, cost_est) :=
    estimate_lane sc_shipments (Some (pre ++ s :: post)%list) models
                  origin destination carrier service distance_override weight stops in
  on_time_prob = ls_on_time_prob s /\ cost_est = ls_est_cost s.
Proof.
  intros Hpair Hpre Hs.
  assert (Hkey : forall x : LaneStat,
            String.eqb (ls_Origin x) origin && String.eqb (ls_Destination x) destination
            && String.eqb (ls_Carrier x) carrier && String.eqb (ls_ServiceLevel x) service
            = lane_key_eqb (ls_key x) (origin, destination, carrier, service))
    by reflexivity.
  apply (lane_statistic_hit sc_shipments (Some (pre ++ s :: post)%list) models
           origin destination carrier service distance_override weight stops
           s (filter (fun x => lane_key_eqb (ls_key x)
                                 (origin, destination, carrier, service)) post) Hpair).
  unfold lane_stats.
  rewrite (filter_ext _ _ Hkey).
  apply filter_first_match.
  - intros s' Hs'. destruct (lane_key_eqb (ls_key s') _) eqn:E; [|reflexivity].
    apply lane_key_eqb_eq in E. now apply Hpre in Hs'.
  - now apply lane_key_eqb_eq.
Qed.

Lemma lane_file_first_row_wins_witness :
  snd (fst (estimate_lane Sample.sc_shipments (Some SampleFile.lane_stats_csv)
              Sample.no_models "CHI" "NYC" "Swift" "Standard" (Some 0) 35000 1))
  = Fin 0.9.
Proof.
  pose proof (lane_file_first_row_wins Sample.sc_shipments Sample.no_models
                "CHI" "NYC" "Swift" "Standard" (Some 0) 35000 1
                [SampleFile.stat "CHI" "NYC" "Acme" "Standard" 0.5 400]
                [SampleFile.stat "CHI" "NYC" "Swift" "Standard" 0.1 900]
                (SampleFile.stat "CHI" "NYC" "Swift" "Standard" 0.9 500)
                (or_introl eq_refl)) as H.
  change ([SampleFile.stat "CHI" "NYC" "Acme" "Standard" 0.5 400]
          ++ SampleFile.stat "CHI" "NYC" "Swift" "Standard" 0.9 500
             :: [SampleFile.stat "CHI" "NYC" "Swift" "Standard" 0.1 900])%list
    with SampleFile.lane_stats_csv in H.
  destruct (estimate_lane _ _ _ _ _ _ _ _ _ _) as [[dist otp] ce].
  simpl. apply H.
  - intros s' [<-|[]]. discriminate.
  - reflexivity.
Defined.

(** ** The options of the form *)

Lemma sorted_unique_column (column : list string) :
  let options := sort_by String.leb (unique String.eqb column) in
  NoDup options
  /\ StronglySorted (ordered_by String.leb) options
  /\ (forall x, In x options <-> In x column).
Proof.
  cbv zeta. split; [|split].
  - apply (Permutation_NoDup (Permutation_sym (sort_by_perm String.leb _))).
    apply unique_NoDup, String.eqb_eq.
  - apply (sort_by_cmp_sorted _ String.compare).
    + apply string_compare_order.
    + apply string_leb_cmp.
  - intro x. now rewrite sort_by_In, (unique_In _ String.eqb_eq).
Qed.

(** X15.  The hospitals, medicines and carriers offered by the form are
    the values of their column, each once, in ascending order. *)
Theorem select_options_sorted_unique
    (sc_shipments : list Shipment) (hc_df : list DemandRecord) :
  (NoDup (hospitals hc_df)
   /\ StronglySorted (ordered_by String.leb) (hospitals hc_df)
   /\ (forall h, In h (hospitals hc_df) <-> exists r, In r hc_df /\ Hospital r = h))
  /\ (NoDup (medicines hc_df)
      /\ StronglySorted (ordered_by String.leb) (medicines hc_df)
      /\ (forall m, In m (medicines hc_df) <-> exists r, In r hc_df /\ Medicine r = m))
  /\ (NoDup (carriers sc_shipments)
      /\ StronglySorted (ordered_by String.leb) (carriers sc_shipments)
      /\ (forall c, In c (carriers sc_shipments)
                    <-> exists r, In r sc_shipments /\ Carrier r = c)).
Proof.
  assert (Hmap : forall (R : Type) (f : R -> string) (rows : list R) (x : string),
            In x (map f rows) <-> exists r, In r rows /\ f r = x).
  { intros R f rows x. rewrite in_map_iff.
    split; intros (r & H1 & H2); exists r; tauto. }
  split; [|split].
  - destruct (sorted_unique_column (map Hospital hc_df)) as (Hn & Hs & Hi).
    split; [exact Hn|]. split; [exact Hs|].
    intro h. unfold hospitals. now rewrite Hi.
  - destruct (sorted_unique_column (map Medicine hc_df)) as (Hn & Hs & Hi).
    split; [exact Hn|]. split; [exact Hs|].
    intro m. unfold medicines. now rewrite Hi.
  - destruct (sorted_unique_column (map Carrier sc_shipments)) as (Hn & Hs & Hi).
    split; [exact Hn|]. split; [exact Hs|].
    intro c. unfold carriers. now rewrite Hi.
Qed.

(** ** The primary carrier in the comparison *)

(** Every known carrier has its row in the table. *)
Lemma compare_carriers_row
    sc_shipments lane_stats_csv models origin destination service
    distance_input weight stops label (c : string) :
  In c (carriers sc_shipments) ->
  exists table,
    compare_carriers sc_shipments lane_stats_csv models origin destination service
                     distance_input weight stops label = Some table
    /\ In (let '(_, otp, ce) :=
             estimate_lane sc_shipments lane_stats_csv models origin destination c
                           service distance_input weight stops in
           {| cr_Carrier := c;
              on_time_probability := otp;
              estimated_cost := ce;
              recommendation := if Num.geb otp (Fin 0.7) then label
                                else "Consider alternate/expedite" |})
          table.
Proof.
  intro Hc. unfold compare_carriers. cbv zeta.
  set (row := fun c : string => _).
  exists (sort_by comp_leb (map row (carriers sc_shipments))). split.
  - destruct (carriers sc_shipments); [contradiction | reflexivity].
  - apply sort_by_In. change (In (row c) (map row (carriers sc_shipments))).
    now apply in_map.
Qed.

(** X16.  The comparison table agrees with the headline estimate: the
    chosen carrier has a row with the on-time probability and the cost
    shown above the table; when the logistics risk is flagged that row
    advises an alternate carrier, and when it is not flagged (and the
    probability is a number) the row repeats the primary recommendation. *)
Theorem primary_row_matches_estimate
    sc_shipments hc_df lane_stats_csv models hospital medicine month
    origin destination carrier service
    current_inventory lead_time_days stops weight distance_input :
  In carrier (carriers sc_shipments) ->
  let a := run sc_shipments hc_df lane_stats_csv models hospital medicine month
               origin destination carrier service
               current_inventory lead_time_days stops weight distance_input in
  exists table row,
    compare_carriers sc_shipments lane_stats_csv models origin destination service
                     (Some (inject_Z distance_input)) weight stops
                     (out_recommendation a) = Some table
    /\ In row table
    /\ cr_Carrier row = carrier
    /\ on_time_probability row = out_on_time_prob a
    /\ estimated_cost row = out_cost_est a
    /\ (out_risk_flag a = true -> recommendation row = "Consider alternate/expedite")
    /\ (is_finite (out_on_time_prob a) -> out_risk_flag a = false ->
        recommendation row = out_recommendation a).
Proof.
  intro Hc. cbv zeta.
  set (a := run _ _ _ _ _ _ _ _ _ _ _ _ _ _ _ _).
  destruct (run_flags sc_shipments hc_df lane_stats_csv models hospital medicine month
              origin destination carrier service
              current_inventory lead_time_days stops weight distance_input)
    as (_ & Hlane & _ & Hrisk).
  fold a in Hlane, Hrisk.
  destruct (compare_carriers_row sc_shipments lane_stats_csv models origin destination
              service (Some (inject_Z distance_input)) weight stops
              (out_recommendation a) carrier Hc) as (table & Htable & Hrow).
  rewrite <- Hlane in Hrow. cbv beta iota in Hrow.
  eexists. eexists. split; [exact Htable|]. split; [exact Hrow|].
  cbn [cr_Carrier on_time_probability estimated_cost recommendation].
  split; [reflexivity|]. split; [reflexivity|]. split; [reflexivity|].
  rewrite Hrisk. unfold risk_flag, Num.geb.
  destruct (out_on_time_prob a) as [q|]; simpl.
  - unfold Num.Qlt_bool. destruct (Qle_bool 0.7 q); simpl; split; congruence.
  - split; [discriminate | contradiction].
Qed.

Lemma primary_row_matches_estimate_witness :
  exists table row,
    compare_carriers Sample.sc_shipments None Sample.no_models "CHI" "NYC" "Standard"
                     (Some (inject_Z 0)) 35000 1 "✅ ORDER NOW" = Some table
    /\ In row table /\ cr_Carrier row = "Acme"
    /\ recommendation row = "Consider alternate/expedite".
Proof.
  destruct (primary_row_matches_estimate Sample.sc_shipments Sample.hc_df None
              Sample.no_models "GenHosp" "InsulinX" 6 "CHI" "NYC" "Acme" "Standard"
              50 7 1 35000 0)
    as (table & row & Htable & Hin & Hc & _ & _ & Hflag & _).
  - vm_compute. auto.
  - exists table, row. split; [exact Htable|]. split; [exact Hin|].
    split; [exact Hc|]. apply Hflag. vm_compute. reflexivity.
Defined.
